(** * observability_charm_tools.status_handling.status_manager

    A shallow embedding of [StatusManager], [_validate_status_map] and
    [get_first_worst_status], together with the small fragment of the Python
    object model they rely on: classes with single inheritance, [issubclass],
    [isinstance], truthiness for [or], keyed lookup in a [dict], raised
    exceptions and the [with] statement protocol. *)

From Stdlib Require Import List String ZArith Bool Arith Lia Permutation.
Import ListNotations.
Open Scope string_scope.

(** ** Python classes *)

Module Py.

(** Class objects.  The builtins the module and its tests touch, the status
    classes exported by [ops], the exception classes of
    [observability_charm_tools.exceptions], and user-defined classes
    [class name(base): pass], which inherit everything from their single
    base (multiple inheritance is outside the model). *)
Inductive pyclass : Type :=
| C_object
| C_type
| C_NoneType
| C_int
| C_str
| C_dict
| C_BaseException
| C_Exception
(* ops *)
| StatusBase
| UnknownStatus
| ErrorStatus
| ActiveStatus
| BlockedStatus
| MaintenanceStatus
| WaitingStatus
(* observability_charm_tools.exceptions *)
| BaseStatusError
| BlockedStatusError
| WaitingStatusError
| MaintenanceStatusError
(* class name(base): ... *)
| UserClass (name : string) (base : pyclass).

Definition pyclass_eq_dec (c d : pyclass) : {c = d} + {c <> d}.
Proof. decide equality. apply string_dec. Defined.

Definition pyclass_eqb (c d : pyclass) : bool :=
  if pyclass_eq_dec c d then true else false.

(** The method resolution order: the class itself followed by its
    ancestors, ending in [object]. *)
Fixpoint mro (c : pyclass) : list pyclass :=
  match c with
  | C_object => [C_object]
  | C_type => [C_type; C_object]
  | C_NoneType => [C_NoneType; C_object]
  | C_int => [C_int; C_object]
  | C_str => [C_str; C_object]
  | C_dict => [C_dict; C_object]
  | C_BaseException => [C_BaseException; C_object]
  | C_Exception => [C_Exception; C_BaseException; C_object]
  | StatusBase => [StatusBase; C_object]
  | UnknownStatus => [UnknownStatus; StatusBase; C_object]
  | ErrorStatus => [ErrorStatus; StatusBase; C_object]
  | ActiveStatus => [ActiveStatus; StatusBase; C_object]
  | BlockedStatus => [BlockedStatus; StatusBase; C_object]
  | MaintenanceStatus => [MaintenanceStatus; StatusBase; C_object]
  | WaitingStatus => [WaitingStatus; StatusBase; C_object]
  | BaseStatusError =>
      [BaseStatusError; C_Exception; C_BaseException; C_object]
  | BlockedStatusError =>
      [BlockedStatusError; BaseStatusError; C_Exception; C_BaseException; C_object]
  | WaitingStatusError =>
      [WaitingStatusError; BaseStatusError; C_Exception; C_BaseException; C_object]
  | MaintenanceStatusError =>
      [MaintenanceStatusError; BaseStatusError; C_Exception; C_BaseException; C_object]
  | UserClass _ base => c :: mro base
  end.

(** [issubclass(c, d)] for two classes. *)
Definition class_issubclass (c d : pyclass) : bool :=
  existsb (pyclass_eqb d) (mro c).

(** ** Python values *)

(** The values that occur as table keys, table values and list elements:
    [None], integers, strings, class objects, and instances [PyObj c msg] of
    a status or exception class [c].  For a status, [msg] is its [message]
    attribute; for an exception it is what [str] returns on it. *)
Inductive pyval : Type :=
| PyNone
| PyInt (z : Z)
| PyStr (s : string)
| PyClass (c : pyclass)
| PyObj (c : pyclass) (msg : string).

Definition pyval_eq_dec (v w : pyval) : {v = w} + {v <> w}.
Proof.
  decide equality;
    try apply string_dec; try apply pyclass_eq_dec; try apply Z.eq_dec.
Defined.

Definition pyval_eqb (v w : pyval) : bool :=
  if pyval_eq_dec v w then true else false.

(** [type(v)]. *)
Definition type_of (v : pyval) : pyclass :=
  match v with
  | PyNone => C_NoneType
  | PyInt _ => C_int
  | PyStr _ => C_str
  | PyClass _ => C_type
  | PyObj c _ => c
  end.

(** [bool(v)].  Neither [ops.StatusBase] nor [Exception] defines [__bool__]
    or [__len__], so their instances are true. *)
Definition truthy (v : pyval) : bool :=
  match v with
  | PyNone => false
  | PyInt z => negb (Z.eqb z 0)
  | PyStr s => negb (String.eqb s "")
  | PyClass _ => true
  | PyObj _ _ => true
  end.

(** [a or b]. *)
Definition py_or (a b : pyval) : pyval := if truthy a then a else b.

(** ** Exceptions raised by the module *)

(** An f-string before formatting: literal text and interpolated values. *)
Inductive fragment : Type :=
| Lit (s : string)
| Fmt (v : pyval).

Definition fstring : Type := list fragment.

(** The exceptions the module raises or meets.  [TypeError] carries the
    exception it was raised [from], if any.  [NotModelled] stands for a call
    of a class whose constructor is outside the model. *)
#[warnings="-register-all"]
Inductive py_error : Type :=
| TypeError (msg : fstring) (cause : option py_error)
| ValueError (msg : fstring)
| KeyError (key : pyval)
| NotModelled (callee : pyval).

Inductive result (A : Type) : Type :=
| Ok (a : A)
| Raise (e : py_error).
Arguments Ok {A} a.
Arguments Raise {A} e.

Definition bind {A B} (m : result A) (k : A -> result B) : result B :=
  match m with
  | Ok a => k a
  | Raise e => Raise e
  end.

(** [try: body / except TypeError as e: handler e]. *)
Definition try_except_TypeError {A} (body : result A)
    (handler : py_error -> result A) : result A :=
  match body with
  | Raise (TypeError msg cause) => handler (TypeError msg cause)
  | r => r
  end.

(** [try: body / except KeyError: handler]. *)
Definition try_except_KeyError {A} (body : result A)
    (handler : result A) : result A :=
  match body with
  | Raise (KeyError _) => handler
  | r => r
  end.

Declare Scope py_scope.
Delimit Scope py_scope with py.
Notation "x <- m ;; k" := (bind m (fun x => k))
  (at level 61, m at next level, right associativity) : py_scope.

(** [isinstance(v, c)]. *)
Definition isinstance (v : pyval) (c : pyclass) : bool :=
  class_issubclass (type_of v) c.

(** [issubclass(x, c)]: a [TypeError] unless [x] is a class. *)
Definition issubclass (x : pyval) (c : pyclass) : result bool :=
  match x with
  | PyClass k => Ok (class_issubclass k c)
  | _ => Raise (TypeError [Lit "issubclass() arg 1 must be a class"] None)
  end.

(** Calling a value with one string argument, [f(msg)].  Only the status
    classes are instantiated by the module: [ops.StatusBase] refuses to be
    instantiated directly, [ops.UnknownStatus] takes no message, and every
    other status class stores the message. *)
Definition py_call (f : pyval) (msg : string) : result pyval :=
  match f with
  | PyClass c =>
      if class_issubclass c StatusBase then
        if pyclass_eqb c StatusBase then
          Raise (TypeError [Lit "cannot instantiate a base class"] None)
        else if class_issubclass c UnknownStatus then
          Raise (TypeError
            [Lit "__init__() takes 1 positional argument but 2 were given"] None)
        else Ok (PyObj c msg)
      else Raise (NotModelled f)
  | _ =>
      Raise (TypeError
        [Fmt (PyClass (type_of f)); Lit " object is not callable"] None)
  end.

(** ** Dictionaries *)

(** A [dict] in insertion order. *)
Definition dict : Type := list (pyval * pyval).

(** [d[k]]. *)
Definition dict_getitem (d : dict) (k : pyval) : result pyval :=
  match find (fun kv => pyval_eqb (fst kv) k) d with
  | Some kv => Ok (snd kv)
  | None => Raise (KeyError k)
  end.

(** [d.keys()]. *)
Definition dict_keys (d : dict) : list pyval := map fst d.

End Py.

Import Py.
Open Scope py_scope.

(** ** The module *)

Definition DEFAULT_STATUS_MAP : dict :=
  [ (PyClass BlockedStatusError, PyClass BlockedStatus);
    (PyClass WaitingStatusError, PyClass WaitingStatus);
    (PyClass MaintenanceStatusError, PyClass MaintenanceStatus) ].

(** *** _validate_status_map *)

(** The body of the loop of [_validate_status_map]: both raises inside a
    [try] are caught by the [except TypeError] that follows it and raised
    again, with the second message, [from] the caught one. *)
Definition validate_item (exception_type status_type : pyval) : result unit :=
  _ <- try_except_TypeError
         (b <- issubclass exception_type C_Exception ;;
          if negb b then
            Raise (TypeError
              [Lit "status_map key "; Fmt exception_type;
               Lit " is not a subclass of Exception"] None)
          else Ok tt)
         (fun e =>
            Raise (TypeError
              [Lit "status_map key "; Fmt exception_type;
               Lit " is not a class"] (Some e))) ;;
  try_except_TypeError
    (b <- issubclass status_type StatusBase ;;
     if negb b then
       Raise (TypeError
         [Lit "status_map value "; Fmt status_type;
          Lit " is not a subclass of StatusBase"] None)
     else Ok tt)
    (fun e =>
       Raise (TypeError
         [Lit "status_map value "; Fmt status_type;
          Lit " is not a class"] (Some e))).

(** [for exception_type, status_type in status_map.items(): ...] *)
Fixpoint _validate_status_map (status_map : dict) : result unit :=
  match status_map with
  | [] => Ok tt
  | (exception_type, status_type) :: items =>
      _ <- validate_item exception_type status_type ;;
      _validate_status_map items
  end.

(** *** get_first_worst_status *)

(** The state of the scan of [get_first_worst_status]. *)
Record scan : Type := mk_scan {
  blocked : pyval;
  waiting : pyval;
  maintenance : pyval;
  active : pyval
}.

(** What one pass through the loop body does next. *)
Inductive flow : Type :=
| Next (s : scan)
| Break (s : scan)
| Throw (e : py_error).

Definition unrecognized_status (status : pyval) : py_error :=
  TypeError
    [Lit "found status "; Fmt status;
     Lit ", expected statuses of one of [BlockedStatus, WaitingStatus, MaintenanceStatus, ActiveStatus]"]
    None.

Definition scan_step (s : scan) (status : pyval) : flow :=
  if isinstance status BlockedStatus then
    Break (mk_scan status (waiting s) (maintenance s) (active s))
  else if isinstance status WaitingStatus then
    Next (mk_scan (blocked s) (py_or (waiting s) status) (maintenance s) (active s))
  else if isinstance status MaintenanceStatus then
    Next (mk_scan (blocked s) (waiting s) (py_or (maintenance s) status) (active s))
  else if isinstance status ActiveStatus then
    Next (mk_scan (blocked s) (waiting s) (maintenance s) (py_or (active s) status))
  else Throw (unrecognized_status status).

(** [for status in statuses: ...] *)
Fixpoint scan_loop (s : scan) (statuses : list pyval) : result scan :=
  match statuses with
  | [] => Ok s
  | status :: rest =>
      match scan_step s status with
      | Next s' => scan_loop s' rest
      | Break s' => Ok s'
      | Throw e => Raise e
      end
  end.

Definition get_first_worst_status (statuses : list pyval) : result pyval :=
  if Nat.eqb (List.length statuses) 0 then
    Raise (ValueError [Lit "No statuses provided"])
  else
    s <- scan_loop (mk_scan PyNone PyNone PyNone PyNone) statuses ;;
    let status :=
      py_or (blocked s) (py_or (waiting s) (py_or (maintenance s) (active s))) in
    Ok status.

(** *** class StatusManager *)

Record StatusManager : Type := mk_StatusManager {
  statuses : list pyval;
  _status_map : dict
}.

(** [__init__(self, status_map=None)]; [not status_map] holds of [None] and
    of the empty dict. *)
Definition __init__ (status_map : option dict) : result StatusManager :=
  let statuses := [] in
  let status_map :=
    match status_map with
    | None => DEFAULT_STATUS_MAP
    | Some [] => DEFAULT_STATUS_MAP
    | Some d => d
    end in
  _ <- _validate_status_map status_map ;;
  Ok (mk_StatusManager statuses status_map).

Definition __enter__ (self : StatusManager) : StatusManager := self.

(** A raised exception: its class and what [str] returns on it. *)
Record exn : Type := mk_exn {
  exn_type : pyclass;
  exn_str : string
}.

(** The arguments [(exc_type, exc_val, exc_tb)] of [__exit__] are all [None]
    when the body of the [with] raised nothing, and are taken from the
    raised exception otherwise. *)
Definition exc_type (exc : option exn) : pyval :=
  match exc with
  | None => PyNone
  | Some e => PyClass (exn_type e)
  end.

Definition str_exc_val (exc : option exn) : string :=
  match exc with
  | None => "None"
  | Some e => exn_str e
  end.

(** [__exit__] returns its result together with the manager it leaves. *)
Definition __exit__ (self : StatusManager) (exc : option exn)
    : result (bool * StatusManager) :=
  r <- try_except_KeyError
         (status_type <- dict_getitem (_status_map self) (exc_type exc) ;;
          Ok (inr status_type))
         (Ok (inl false)) ;;
  match r with
  | inl b => Ok (b, self)
  | inr status_type =>
      status <- py_call status_type (str_exc_val exc) ;;
      Ok (true,
          mk_StatusManager (statuses self ++ [status]) (_status_map self))
  end.

Definition __len__ (self : StatusManager) : nat := List.length (statuses self).

Definition worst (self : StatusManager) : result pyval :=
  if Nat.eqb (__len__ self) 0 then py_call (PyClass ActiveStatus) ""
  else get_first_worst_status (statuses self).

(** How a [with status_manager: task] block ends: normally, with the
    exception of the task propagating, or with an exception raised by
    [__exit__] itself. *)
Inductive outcome : Type :=
| Completed
| Propagates (e : exn)
| ExitRaised (err : py_error).

(** [with self: task], where the task either returns ([None]) or raises. *)
Definition with_scope (self : StatusManager) (task : option exn)
    : outcome * StatusManager :=
  let self := __enter__ self in
  match __exit__ self task with
  | Raise err => (ExitRaised err, self)
  | Ok (suppress, self') =>
      match task with
      | None => (Completed, self')
      | Some e => if suppress then (Completed, self') else (Propagates e, self')
      end
  end.

(** [for task in tasks: with self: task()]: the loop ends at the first
    exception that leaves its scope. *)
Fixpoint run_scopes (self : StatusManager) (tasks : list (option exn))
    : outcome * StatusManager :=
  match tasks with
  | [] => (Completed, self)
  | task :: rest =>
      match with_scope self task with
      | (Completed, self') => run_scopes self' rest
      | stopped => stopped
      end
  end.

(** The exception classes of [tests/unit/test_status_manager.py]. *)
Definition CustomError : pyclass := UserClass "CustomError" C_Exception.

Definition AnotherCustomError : pyclass := UserClass "AnotherCustomError" C_Exception.

(** ** Severity tiers *)

Inductive tier : Type := Blocked | Waiting | Maintenance | Active.

(** The ranking of the docstrings: [BlockedStatus] is the worst. *)
Definition severity (t : tier) : nat :=
  match t with
  | Blocked => 3
  | Waiting => 2
  | Maintenance => 1
  | Active => 0
  end.

Definition tier_class (t : tier) : pyclass :=
  match t with
  | Blocked => BlockedStatus
  | Waiting => WaitingStatus
  | Maintenance => MaintenanceStatus
  | Active => ActiveStatus
  end.

Definition tier_eqb (t u : tier) : bool := Nat.eqb (severity t) (severity u).

(** The tier a class belongs to: that of the tier class it is or derives
    from. *)
Fixpoint tier_of_class (c : pyclass) : option tier :=
  match c with
  | BlockedStatus => Some Blocked
  | WaitingStatus => Some Waiting
  | MaintenanceStatus => Some Maintenance
  | ActiveStatus => Some Active
  | UserClass _ base => tier_of_class base
  | _ => None
  end.

(** The tier of a value; [None] for anything that is not an instance of one
    of the four tier classes. *)
Definition tier_of (v : pyval) : option tier := tier_of_class (type_of v).

Definition has_tier (t : tier) (v : pyval) : bool :=
  match tier_of v with
  | Some u => tier_eqb t u
  | None => false
  end.

(** The first element of tier [t]. *)
Definition first_of (t : tier) (l : list pyval) : option pyval :=
  find (has_tier t) l.

(** ** Vocabulary of the properties *)

(** [v] is an instance of one of the four tier classes. *)
Definition recognized (v : pyval) : Prop := tier_of v <> None.

Definition val_of (o : option pyval) : pyval :=
  match o with
  | Some v => v
  | None => PyNone
  end.

(** The selection the docstring describes: the first [BlockedStatus], else
    the first [WaitingStatus], else the first [MaintenanceStatus], else the
    first [ActiveStatus]. *)
Definition first_worst (l : list pyval) : option pyval :=
  match first_of Blocked l with
  | Some b => Some b
  | None =>
      match first_of Waiting l with
      | Some w => Some w
      | None =>
          match first_of Maintenance l with
          | Some m => Some m
          | None => first_of Active l
          end
      end
  end.

(** The loop variables hold [None] or a status, never another false value. *)
Definition unset_or_true (v : pyval) : Prop := v = PyNone \/ truthy v = true.

Definition scan_wf (s : scan) : Prop :=
  unset_or_true (waiting s) /\ unset_or_true (maintenance s)
  /\ unset_or_true (active s).

(** No element of [l] is of a tier more severe than [t]. *)
Definition most_severe_in (l : list pyval) (t : tier) : Prop :=
  forall x u, In x l -> tier_of x = Some u -> severity u <= severity t.

(** No element of [l] before position [i] is of tier [t]. *)
Definition earliest_of_tier (l : list pyval) (i : nat) (t : tier) : Prop :=
  forall j x, j < i -> nth_error l j = Some x -> tier_of x <> Some t.

(** [r] sits at position [i] of [l], is of the most severe tier present and
    is the earliest element of that tier. *)
Definition first_worst_at (l : list pyval) (i : nat) (r : pyval) : Prop :=
  exists t, nth_error l i = Some r /\ tier_of r = Some t
            /\ most_severe_in l t /\ earliest_of_tier l i t.

(** The table of [self] maps the class of [e] to the class [c], which is of
    one of the four tiers. *)
Definition maps_to_tier_class (self : StatusManager) (e : exn) (c : pyclass) : Prop :=
  dict_getitem (_status_map self) (PyClass (exn_type e)) = Ok (PyClass c)
  /\ tier_of_class c <> None.

(** The status a scope records for [e]. *)
Definition recorded_for (self : StatusManager) (e : exn) : pyval :=
  match dict_getitem (_status_map self) (PyClass (exn_type e)) with
  | Ok (PyClass c) => PyObj c (exn_str e)
  | _ => PyNone
  end.

(** [x] is a class deriving from [Exception]. *)
Definition is_exception_class (x : pyval) : bool :=
  match x with
  | PyClass c => class_issubclass c C_Exception
  | _ => false
  end.

(** [x] is a class deriving from [StatusBase]. *)
Definition is_status_class (x : pyval) : bool :=
  match x with
  | PyClass c => class_issubclass c StatusBase
  | _ => false
  end.

(** [x] is a class of one of the four tiers. *)
Definition is_tier_class (x : pyval) : bool :=
  match x with
  | PyClass c => match tier_of_class c with Some _ => true | None => false end
  | _ => false
  end.

Definition key_error_msg (k : pyval) : fstring :=
  [Lit "status_map key "; Fmt k; Lit " is not a class"].

Definition value_error_msg (v : pyval) : fstring :=
  [Lit "status_map value "; Fmt v; Lit " is not a class"].

(** ** Vocabulary of the further properties *)

(** Both checks of [_validate_status_map] pass on the entry. *)
Definition valid_item (kv : pyval * pyval) : bool :=
  is_exception_class (fst kv) && is_status_class (snd kv).

(** The entry maps an exception class to a class of one of the four tiers. *)
Definition tier_item (kv : pyval * pyval) : bool :=
  is_exception_class (fst kv) && is_tier_class (snd kv).

(** Every entry of the table of [self] maps an exception class to a class of
    one of the four tiers. *)
Definition tier_valued (self : StatusManager) : Prop :=
  forallb tier_item (_status_map self) = true.

(** [v] is of the Waiting, Maintenance or Active tier: the scan goes past
    it. *)
Definition below_blocked (v : pyval) : Prop :=
  recognized v /\ tier_of v <> Some Blocked.

(** [v] is of a known tier that is at most as severe as [t]. *)
Definition at_most (t : tier) (v : pyval) : Prop :=
  exists u, tier_of v = Some u /\ severity u <= severity t.

(** The three exception classes [DEFAULT_STATUS_MAP] is keyed by. *)
Definition default_caught : list pyclass :=
  [BlockedStatusError; WaitingStatusError; MaintenanceStatusError].

(** * Properties *)

(** ** The unit tests, run on the model *)

Example test_catches_two_known :
  match __init__ (Some [(PyClass CustomError, PyClass BlockedStatus)]) with
  | Ok sm =>
      run_scopes sm [Some (mk_exn CustomError "0"); Some (mk_exn CustomError "1")]
      = (Completed,
         mk_StatusManager [PyObj BlockedStatus "0"; PyObj BlockedStatus "1"]
                          [(PyClass CustomError, PyClass BlockedStatus)])
  | Raise _ => False
  end.
Proof. vm_compute. reflexivity. Qed.

Example test_unknown_in_the_middle :
  match __init__ (Some [(PyClass CustomError, PyClass BlockedStatus)]) with
  | Ok sm =>
      fst (run_scopes sm
             [Some (mk_exn CustomError "0"); Some (mk_exn CustomError "1");
              Some (mk_exn AnotherCustomError "2"); Some (mk_exn CustomError "3")])
      = Propagates (mk_exn AnotherCustomError "2")
  | Raise _ => False
  end.
Proof. vm_compute. reflexivity. Qed.

Example test_worst_cases :
  get_first_worst_status [PyObj BlockedStatus "0"; PyObj BlockedStatus "1"]
    = Ok (PyObj BlockedStatus "0")
  /\ get_first_worst_status
       [PyObj ActiveStatus "0"; PyObj MaintenanceStatus "1";
        PyObj WaitingStatus "2"; PyObj BlockedStatus "3"]
     = Ok (PyObj BlockedStatus "3")
  /\ get_first_worst_status
       [PyObj ActiveStatus "0"; PyObj MaintenanceStatus "1"; PyObj WaitingStatus "2"]
     = Ok (PyObj WaitingStatus "2")
  /\ get_first_worst_status [PyObj ActiveStatus "0"; PyObj MaintenanceStatus "1"]
     = Ok (PyObj MaintenanceStatus "1")
  /\ get_first_worst_status [PyObj ActiveStatus "0"; PyObj ActiveStatus "1"]
     = Ok (PyObj ActiveStatus "0")
  /\ get_first_worst_status [PyStr "not a status"]
     = Raise (unrecognized_status (PyStr "not a status")).
Proof. vm_compute. repeat split. Qed.

Example test_rejects_incorrect_status_map :
  (exists e, __init__ (Some [(PyInt 1, PyClass BlockedStatus)]) = Raise e)
  /\ (exists e, __init__ (Some [(PyClass C_dict, PyClass BlockedStatus)]) = Raise e)
  /\ (exists e, __init__ (Some [(PyClass CustomError, PyInt 1)]) = Raise e)
  /\ (exists e, __init__ (Some [(PyClass CustomError, PyClass C_dict)]) = Raise e).
Proof. repeat split; eexists; vm_compute; reflexivity. Qed.

(** ** Facts about classes and tiers *)

Lemma severity_inj (t u : tier) : severity t = severity u -> t = u.
Proof. destruct t, u; simpl; intros H; try reflexivity; discriminate. Qed.

Lemma tier_eqb_eq (t u : tier) : tier_eqb t u = true <-> t = u.
Proof.
  unfold tier_eqb. rewrite Nat.eqb_eq. split.
  - apply severity_inj.
  - intros ->. reflexivity.
Qed.

Lemma pyclass_eqb_eq (c d : pyclass) : pyclass_eqb c d = true <-> c = d.
Proof.
  unfold pyclass_eqb. destruct (pyclass_eq_dec c d); split; intros H;
    try reflexivity; try assumption; try discriminate; contradiction.
Qed.

Lemma pyval_eqb_eq (v w : pyval) : pyval_eqb v w = true <-> v = w.
Proof.
  unfold pyval_eqb. destruct (pyval_eq_dec v w); split; intros H;
    try reflexivity; try assumption; try discriminate; contradiction.
Qed.

Lemma pyval_eqb_refl (v : pyval) : pyval_eqb v v = true.
Proof. apply pyval_eqb_eq. reflexivity. Qed.

Lemma class_issubclass_refl (c : pyclass) : class_issubclass c c = true.
Proof.
  unfold class_issubclass. apply existsb_exists. exists c. split.
  - destruct c; simpl; auto.
  - apply pyclass_eqb_eq. reflexivity.
Qed.

(** A user class is a subclass of a builtin exactly when its base is. *)
Lemma class_issubclass_UserClass (n : string) (b d : pyclass) :
  (forall n' b', d <> UserClass n' b') ->
  class_issubclass (UserClass n b) d = class_issubclass b d.
Proof.
  intros Hd. unfold class_issubclass. simpl.
  replace (pyclass_eqb d (UserClass n b)) with false; [reflexivity|].
  symmetry. apply not_true_is_false. intros H.
  apply pyclass_eqb_eq in H. exact (Hd _ _ H).
Qed.

Lemma class_issubclass_tier (c : pyclass) (t : tier) :
  class_issubclass c (tier_class t)
  = match tier_of_class c with
    | Some u => tier_eqb t u
    | None => false
    end.
Proof.
  induction c; try (destruct t; reflexivity).
  rewrite class_issubclass_UserClass.
  - simpl. exact IHc.
  - intros n' b'. destruct t; discriminate.
Qed.

Lemma isinstance_has_tier (v : pyval) (t : tier) :
  isinstance v (tier_class t) = has_tier t v.
Proof. unfold isinstance, has_tier, tier_of. apply class_issubclass_tier. Qed.

Lemma has_tier_iff (t : tier) (v : pyval) :
  has_tier t v = true <-> tier_of v = Some t.
Proof.
  unfold has_tier. destruct (tier_of v) as [u|].
  - rewrite tier_eqb_eq. split; intros H; congruence.
  - split; discriminate.
Qed.

Lemma has_tier_false_iff (t : tier) (v : pyval) :
  has_tier t v = false <-> tier_of v <> Some t.
Proof.
  rewrite <- has_tier_iff. destruct (has_tier t v); split; intros H;
    try reflexivity; try discriminate; try congruence.
Qed.

(** Instances of status classes are true values. *)
Lemma tier_truthy (v : pyval) (t : tier) : tier_of v = Some t -> truthy v = true.
Proof. destruct v; simpl; intros H; try discriminate; reflexivity. Qed.

Lemma py_or_truthy (a b : pyval) : truthy a = true -> py_or a b = a.
Proof. unfold py_or. intros ->. reflexivity. Qed.

Lemma py_or_None (b : pyval) : py_or PyNone b = b.
Proof. reflexivity. Qed.

Lemma py_or_assoc (a b c : pyval) : py_or (py_or a b) c = py_or a (py_or b c).
Proof. unfold py_or. destruct (truthy a) eqn:Ha; [rewrite Ha|]; reflexivity. Qed.

(** ** The scan *)

Lemma scan_step_tier (s : scan) (v : pyval) :
  scan_step s v =
  match tier_of v with
  | Some Blocked => Break (mk_scan v (waiting s) (maintenance s) (active s))
  | Some Waiting =>
      Next (mk_scan (blocked s) (py_or (waiting s) v) (maintenance s) (active s))
  | Some Maintenance =>
      Next (mk_scan (blocked s) (waiting s) (py_or (maintenance s) v) (active s))
  | Some Active =>
      Next (mk_scan (blocked s) (waiting s) (maintenance s) (py_or (active s) v))
  | None => Throw (unrecognized_status v)
  end.
Proof.
  unfold scan_step.
  change BlockedStatus with (tier_class Blocked).
  change WaitingStatus with (tier_class Waiting).
  change MaintenanceStatus with (tier_class Maintenance).
  change ActiveStatus with (tier_class Active).
  rewrite !isinstance_has_tier. unfold has_tier.
  destruct (tier_of v) as [[]|]; reflexivity.
Qed.

Lemma first_of_cons (t : tier) (v : pyval) (l : list pyval) :
  first_of t (v :: l) = if has_tier t v then Some v else first_of t l.
Proof. reflexivity. Qed.

Lemma first_of_truthy (t : tier) (l : list pyval) (v : pyval) :
  first_of t l = Some v -> truthy v = true.
Proof.
  intros H. apply find_some in H. destruct H as [_ H].
  apply has_tier_iff in H. exact (tier_truthy _ _ H).
Qed.

Lemma py_or_val_of_cons (a v : pyval) (t : tier) (l : list pyval) :
  tier_of v = Some t ->
  py_or (py_or a v) (val_of (first_of t l)) = py_or a (val_of (first_of t (v :: l))).
Proof.
  intros Hv. rewrite py_or_assoc, first_of_cons.
  rewrite (proj2 (has_tier_iff t v) Hv). simpl.
  rewrite (py_or_truthy v) by exact (tier_truthy _ _ Hv). reflexivity.
Qed.

Lemma first_of_cons_other (t u : tier) (v : pyval) (l : list pyval) :
  tier_of v = Some u -> t <> u -> first_of t (v :: l) = first_of t l.
Proof.
  intros Hv Hne. rewrite first_of_cons.
  rewrite (proj2 (has_tier_false_iff t v)); [reflexivity|].
  rewrite Hv. congruence.
Qed.

Lemma py_or_unset (a : pyval) : unset_or_true a -> py_or a PyNone = a.
Proof. intros [->|H]; [reflexivity|]. apply py_or_truthy. exact H. Qed.

Lemma unset_or_true_py_or (a v : pyval) (t : tier) :
  tier_of v = Some t -> unset_or_true (py_or a v).
Proof.
  intros Hv. right. unfold py_or. destruct (truthy a) eqn:Ha; [exact Ha|].
  exact (tier_truthy _ _ Hv).
Qed.

(** What the loop leaves in its four variables when every element is of a
    known tier. *)
Lemma scan_loop_spec (l : list pyval) :
  Forall recognized l ->
  forall s : scan, scan_wf s ->
  exists s', scan_loop s l = Ok s' /\
    match first_of Blocked l with
    | Some b => blocked s' = b
    | None =>
        blocked s' = blocked s
        /\ waiting s' = py_or (waiting s) (val_of (first_of Waiting l))
        /\ maintenance s' = py_or (maintenance s) (val_of (first_of Maintenance l))
        /\ active s' = py_or (active s) (val_of (first_of Active l))
    end.
Proof.
  induction 1 as [|v l Hv Hl IH]; intros s (Hws & Hms & Has).
  - exists s. simpl. rewrite !py_or_unset by assumption. auto.
  - simpl scan_loop. rewrite scan_step_tier.
    destruct (tier_of v) as [t|] eqn:Et; [|elim Hv; exact Et].
    destruct t.
    + eexists. split; [reflexivity|].
      rewrite first_of_cons, (proj2 (has_tier_iff Blocked v) Et). reflexivity.
    + destruct (IH (mk_scan (blocked s) (py_or (waiting s) v) (maintenance s) (active s)))
        as [s' [Hrun Hs']].
      { repeat split; simpl; try assumption. exact (unset_or_true_py_or _ _ _ Et). }
      exists s'. split; [exact Hrun|].
      rewrite (first_of_cons_other Blocked Waiting v l Et) by discriminate.
      destruct (first_of Blocked l); [exact Hs'|].
      simpl in Hs'. destruct Hs' as [Hb [Hw [Hm Ha]]].
      rewrite (first_of_cons_other Maintenance Waiting v l Et) by discriminate.
      rewrite (first_of_cons_other Active Waiting v l Et) by discriminate.
      rewrite <- (py_or_val_of_cons _ _ _ _ Et). auto.
    + destruct (IH (mk_scan (blocked s) (waiting s) (py_or (maintenance s) v) (active s)))
        as [s' [Hrun Hs']].
      { repeat split; simpl; try assumption. exact (unset_or_true_py_or _ _ _ Et). }
      exists s'. split; [exact Hrun|].
      rewrite (first_of_cons_other Blocked Maintenance v l Et) by discriminate.
      destruct (first_of Blocked l); [exact Hs'|].
      simpl in Hs'. destruct Hs' as [Hb [Hw [Hm Ha]]].
      rewrite (first_of_cons_other Waiting Maintenance v l Et) by discriminate.
      rewrite (first_of_cons_other Active Maintenance v l Et) by discriminate.
      rewrite <- (py_or_val_of_cons _ _ _ _ Et). auto.
    + destruct (IH (mk_scan (blocked s) (waiting s) (maintenance s) (py_or (active s) v)))
        as [s' [Hrun Hs']].
      { repeat split; simpl; try assumption. exact (unset_or_true_py_or _ _ _ Et). }
      exists s'. split; [exact Hrun|].
      rewrite (first_of_cons_other Blocked Active v l Et) by discriminate.
      destruct (first_of Blocked l); [exact Hs'|].
      simpl in Hs'. destruct Hs' as [Hb [Hw [Hm Ha]]].
      rewrite (first_of_cons_other Waiting Active v l Et) by discriminate.
      rewrite (first_of_cons_other Maintenance Active v l Et) by discriminate.
      rewrite <- (py_or_val_of_cons _ _ _ _ Et). auto.
Qed.

(** A non-empty list of recognized statuses has a first worst element. *)
Lemma first_worst_some (l : list pyval) :
  l <> [] -> Forall recognized l -> exists r, first_worst l = Some r.
Proof.
  intros Hne Hl. destruct l as [|v l]; [congruence|].
  inversion Hl as [|? ? Hv _]; subst.
  unfold first_worst. rewrite !first_of_cons.
  destruct (tier_of v) as [t|] eqn:Et; [|elim Hv; exact Et].
  destruct t;
    repeat match goal with
    | |- context [has_tier ?u v] =>
        let E := fresh in
        destruct (has_tier u v) eqn:E;
        [ apply has_tier_iff in E; try congruence
        | apply has_tier_false_iff in E; try congruence ]
    | |- context [match first_of ?u l with _ => _ end] =>
        destruct (first_of u l)
    end; eauto.
Qed.

(** On recognized statuses the function computes [first_worst]. *)
Lemma get_first_worst_status_first_worst (l : list pyval) (r : pyval) :
  Forall recognized l -> first_worst l = Some r ->
  get_first_worst_status l = Ok r.
Proof.
  intros Hl Hr. unfold get_first_worst_status.
  destruct l as [|v l]; [discriminate|]. simpl Nat.eqb. cbv iota.
  remember (v :: l) as l0 eqn:El0. clear El0 v l.
  destruct (scan_loop_spec l0 Hl (mk_scan PyNone PyNone PyNone PyNone))
    as [s' [Hrun Hs']].
  { repeat split; left; reflexivity. }
  rewrite Hrun. simpl bind. f_equal.
  unfold first_worst in Hr.
  destruct (first_of Blocked l0) as [b|] eqn:Eb.
  - injection Hr as <-. rewrite Hs'.
    apply py_or_truthy. exact (first_of_truthy _ _ _ Eb).
  - cbn [blocked waiting maintenance active] in Hs'.
    destruct Hs' as [Hb [Hw [Hm Ha]]].
    rewrite Hb, Hw, Hm, Ha, !py_or_None.
    destruct (first_of Waiting l0) as [w|] eqn:Ew.
    + injection Hr as <-. apply py_or_truthy. exact (first_of_truthy _ _ _ Ew).
    + simpl val_of. rewrite py_or_None.
      destruct (first_of Maintenance l0) as [m|] eqn:Em.
      * injection Hr as <-. apply py_or_truthy. exact (first_of_truthy _ _ _ Em).
      * simpl val_of. rewrite py_or_None. rewrite Hr. reflexivity.
Qed.

(** ** Selection by tier and position *)

Lemma first_of_index (t : tier) (l : list pyval) (r : pyval) :
  first_of t l = Some r ->
  exists i, nth_error l i = Some r /\ tier_of r = Some t /\ earliest_of_tier l i t.
Proof.
  induction l as [|v l IH]; [discriminate|].
  rewrite first_of_cons. destruct (has_tier t v) eqn:Ev.
  - intros [= <-]. exists 0. repeat split.
    + apply has_tier_iff. exact Ev.
    + intros j x Hj. lia.
  - intros Hr. destruct (IH Hr) as [i [Hi [Ht He]]].
    exists (S i). repeat split; try assumption.
    intros [|j] x Hj Hx.
    + injection Hx as <-. apply has_tier_false_iff. exact Ev.
    + apply (He j x); [lia | exact Hx].
Qed.

Lemma first_of_None (t : tier) (l : list pyval) :
  first_of t l = None -> forall x, In x l -> tier_of x <> Some t.
Proof.
  intros H x Hx. apply has_tier_false_iff.
  exact (find_none _ _ H x Hx).
Qed.

Lemma first_worst_spec (l : list pyval) (r : pyval) :
  first_worst l = Some r -> exists i, first_worst_at l i r.
Proof.
  unfold first_worst. intros Hr.
  destruct (first_of Blocked l) as [b|] eqn:Eb;
    [|destruct (first_of Waiting l) as [w|] eqn:Ew;
      [|destruct (first_of Maintenance l) as [m|] eqn:Em]].
  4: rename Hr into Ea.
  1-3: injection Hr as <-.
  1: destruct (first_of_index _ _ _ Eb) as [i [Hi [Ht He]]]; exists i, Blocked.
  2: destruct (first_of_index _ _ _ Ew) as [i [Hi [Ht He]]]; exists i, Waiting.
  3: destruct (first_of_index _ _ _ Em) as [i [Hi [Ht He]]]; exists i, Maintenance.
  4: destruct (first_of_index _ _ _ Ea) as [i [Hi [Ht He]]]; exists i, Active.
  all: repeat split; try assumption.
  all: intros x u Hx Hu; destruct u; simpl; try lia.
  all: exfalso.
  all: try (exact (first_of_None _ _ Eb x Hx Hu)).
  all: try (exact (first_of_None _ _ Ew x Hx Hu)).
  all: exact (first_of_None _ _ Em x Hx Hu).
Qed.

Lemma nth_error_tier (l l' : list pyval) (j : nat) (x : pyval) :
  map tier_of l' = map tier_of l -> nth_error l j = Some x ->
  exists x', nth_error l' j = Some x' /\ tier_of x' = tier_of x.
Proof.
  intros Hmap Hx.
  assert (H : nth_error (map tier_of l') j = Some (tier_of x)).
  { rewrite Hmap. apply map_nth_error. exact Hx. }
  rewrite nth_error_map in H.
  destruct (nth_error l' j) as [x'|]; [|discriminate].
  exists x'. split; [reflexivity|]. simpl in H. congruence.
Qed.

(** The position selected depends on the tiers alone. *)
Lemma first_worst_at_same_tiers (l l' : list pyval) (i i' : nat) (r r' : pyval) :
  map tier_of l' = map tier_of l ->
  first_worst_at l i r -> first_worst_at l' i' r' -> i' = i.
Proof.
  intros Hmap (t & Hi & Ht & Hsev & Hfirst) (t' & Hi' & Ht' & Hsev' & Hfirst').
  destruct (nth_error_tier l l' i r Hmap Hi) as (y' & Hy' & Hty').
  destruct (nth_error_tier l' l i' r' (eq_sym Hmap) Hi') as (y & Hy & Hty).
  assert (Htt : t' = t).
  { apply severity_inj. apply Nat.le_antisymm.
    - apply (Hsev y t'); [exact (nth_error_In _ _ Hy) | congruence].
    - apply (Hsev' y' t); [exact (nth_error_In _ _ Hy') | congruence]. }
  subst t'.
  destruct (Nat.lt_trichotomy i' i) as [Hlt|[Heq|Hgt]]; [|exact Heq|]; exfalso.
  - apply (Hfirst i' y Hlt Hy). congruence.
  - apply (Hfirst' i y' Hgt Hy'). congruence.
Qed.

Lemma recognized_same_tiers (l l' : list pyval) :
  map tier_of l' = map tier_of l -> Forall recognized l -> Forall recognized l'.
Proof.
  revert l. induction l' as [|x' l' IH]; intros [|x l] Hmap Hl;
    try discriminate; constructor.
  - inversion Hl; subst. injection Hmap as Hx _. unfold recognized in *. congruence.
  - inversion Hl; subst. injection Hmap as _ Hm. exact (IH l Hm H2).
Qed.

(** What the selector returns on recognized statuses. *)
Lemma get_first_worst_status_selects (l : list pyval) :
  l <> [] -> Forall recognized l ->
  exists i r, get_first_worst_status l = Ok r /\ first_worst_at l i r.
Proof.
  intros Hne Hl.
  destruct (first_worst_some l Hne Hl) as [r Hr].
  destruct (first_worst_spec l r Hr) as [i Hi].
  exists i, r. split; [|exact Hi].
  exact (get_first_worst_status_first_worst l r Hl Hr).
Qed.

(** [C1] On a non-empty list of statuses that all belong to one of the four
    tiers, [get_first_worst_status] returns the element at a position [i]
    such that no element is of a more severe tier and no earlier element is
    of the same tier; and on any other list with the same tiers at the same
    positions, whatever its messages, it returns the element at that same
    position [i]. *)
Theorem get_first_worst_status_first_of_worst_tier (statuses : list pyval) :
  statuses <> [] -> Forall recognized statuses ->
  exists i r,
    get_first_worst_status statuses = Ok r
    /\ first_worst_at statuses i r
    /\ forall statuses',
         map tier_of statuses' = map tier_of statuses ->
         exists r', get_first_worst_status statuses' = Ok r'
                    /\ nth_error statuses' i = Some r'.
Proof.
  intros Hne Hl.
  destruct (get_first_worst_status_selects statuses Hne Hl) as (i & r & Hrun & Hat).
  exists i, r. repeat split; try assumption.
  intros l' Hmap.
  assert (Hne' : l' <> []).
  { intros ->. destruct statuses; [congruence | discriminate]. }
  pose proof (recognized_same_tiers statuses l' Hmap Hl) as Hl'.
  destruct (get_first_worst_status_selects l' Hne' Hl') as (i' & r' & Hrun' & Hat').
  exists r'. split; [exact Hrun'|].
  rewrite <- (first_worst_at_same_tiers statuses l' i i' r r' Hmap Hat Hat').
  destruct Hat' as (t' & Hi' & _). exact Hi'.
Qed.

Lemma get_first_worst_status_first_of_worst_tier_witness :
  exists i r,
    get_first_worst_status
      [PyObj ActiveStatus "0"; PyObj WaitingStatus "1"; PyObj WaitingStatus "2"]
    = Ok r
    /\ first_worst_at
         [PyObj ActiveStatus "0"; PyObj WaitingStatus "1"; PyObj WaitingStatus "2"]
         i r
    /\ forall statuses',
         map tier_of statuses'
         = map tier_of
             [PyObj ActiveStatus "0"; PyObj WaitingStatus "1"; PyObj WaitingStatus "2"] ->
         exists r', get_first_worst_status statuses' = Ok r'
                    /\ nth_error statuses' i = Some r'.
Proof.
  apply get_first_worst_status_first_of_worst_tier.
  - discriminate.
  - repeat constructor; discriminate.
Defined.

(** [C10] On a non-empty list of statuses that all belong to one of the four
    tiers, [get_first_worst_status] returns an element of the list: a status
    object of the input, with the class and the message it has there. *)
Theorem get_first_worst_status_returns_input_element (statuses : list pyval) :
  statuses <> [] -> Forall recognized statuses ->
  exists r, get_first_worst_status statuses = Ok r /\ In r statuses.
Proof.
  intros Hne Hl.
  destruct (get_first_worst_status_selects statuses Hne Hl)
    as (i & r & Hrun & t & Hi & _).
  exists r. split; [exact Hrun|]. exact (nth_error_In _ _ Hi).
Qed.

Lemma get_first_worst_status_returns_input_element_witness :
  exists r,
    get_first_worst_status [PyObj MaintenanceStatus "m"; PyObj ActiveStatus "a"] = Ok r
    /\ In r [PyObj MaintenanceStatus "m"; PyObj ActiveStatus "a"].
Proof.
  apply get_first_worst_status_returns_input_element.
  - discriminate.
  - repeat constructor; discriminate.
Defined.

(** ** Unrecognized statuses *)

Lemma scan_loop_unrecognized (pre post : list pyval) (x : pyval) :
  tier_of x = None ->
  Forall (fun v => tier_of v <> Some Blocked) pre ->
  forall s : scan,
  exists y, In y (pre ++ [x]) /\ tier_of y = None
            /\ scan_loop s (pre ++ x :: post) = Raise (unrecognized_status y).
Proof.
  intros Hx. induction 1 as [|v pre Hv Hpre IH]; intros s.
  - exists x. simpl. rewrite scan_step_tier, Hx. auto.
  - simpl app. simpl scan_loop. rewrite scan_step_tier.
    destruct (tier_of v) as [t|] eqn:Et.
    + destruct t; try congruence.
      all: match goal with
           | |- context [scan_loop ?s1 _] =>
               destruct (IH s1) as (y & Hy & Hty & Hrun)
           end; exists y; simpl; auto.
    + exists v. simpl. auto.
Qed.

(** [C4], as the code has it.  A status outside the four tiers that no
    [BlockedStatus] precedes makes [get_first_worst_status] raise the
    [TypeError] naming an unrecognized status of the list, whatever follows
    it.  (Nothing is examined after the first [BlockedStatus]: the loop
    breaks there.) *)
Theorem get_first_worst_status_rejects_unrecognized
    (pre post : list pyval) (x : pyval) :
  tier_of x = None ->
  Forall (fun v => tier_of v <> Some Blocked) pre ->
  exists y, In y (pre ++ [x]) /\ tier_of y = None
            /\ get_first_worst_status (pre ++ x :: post)
               = Raise (unrecognized_status y).
Proof.
  intros Hx Hpre. unfold get_first_worst_status.
  replace (Nat.eqb (List.length (pre ++ x :: post)) 0) with false.
  - destruct (scan_loop_unrecognized pre post x Hx Hpre
                (mk_scan PyNone PyNone PyNone PyNone)) as (y & Hy & Hty & Hrun).
    exists y. rewrite Hrun. auto.
  - symmetry. apply Nat.eqb_neq. rewrite length_app. simpl. lia.
Qed.

Lemma get_first_worst_status_rejects_unrecognized_witness :
  exists y,
    In y ([PyObj WaitingStatus "w"] ++ [PyObj ErrorStatus "e"])
    /\ tier_of y = None
    /\ get_first_worst_status
         ([PyObj WaitingStatus "w"] ++ PyObj ErrorStatus "e" :: [PyObj BlockedStatus "b"])
       = Raise (unrecognized_status y).
Proof.
  apply get_first_worst_status_rejects_unrecognized.
  - reflexivity.
  - repeat constructor; discriminate.
Defined.

(** Counterexample to [C4] as stated: an unrecognized status that follows
    a [BlockedStatus] is never looked at, and the [BlockedStatus] is
    returned. *)
Lemma get_first_worst_status_skips_after_blocked :
  In (PyStr "not a status") [PyObj BlockedStatus "b"; PyStr "not a status"]
  /\ tier_of (PyStr "not a status") = None
  /\ get_first_worst_status [PyObj BlockedStatus "b"; PyStr "not a status"]
     = Ok (PyObj BlockedStatus "b")
  /\ ~ (forall statuses : list pyval,
          (exists x, In x statuses /\ tier_of x = None) ->
          exists y, get_first_worst_status statuses = Raise (unrecognized_status y)).
Proof.
  assert (Hin : In (PyStr "not a status")
                  [PyObj BlockedStatus "b"; PyStr "not a status"]).
  { right. left. reflexivity. }
  repeat split; try exact Hin; try reflexivity.
  intros H.
  destruct (H [PyObj BlockedStatus "b"; PyStr "not a status"]) as [y Hy].
  - exists (PyStr "not a status"). split; [exact Hin | reflexivity].
  - discriminate Hy.
Qed.

(** ** The empty cases *)

(** [C7] Called on the empty list, [get_first_worst_status] raises
    [ValueError("No statuses provided")]; the default for nothing recorded is
    made by [StatusManager.worst], which returns [ActiveStatus("")] there
    without calling it. *)
Theorem get_first_worst_status_empty :
  get_first_worst_status [] = Raise (ValueError [Lit "No statuses provided"])
  /\ forall status_map : dict,
       worst (mk_StatusManager [] status_map) = Ok (PyObj ActiveStatus "").
Proof. split; [reflexivity | intros; reflexivity]. Qed.

(** [C6] On a manager that has recorded no status, [worst] returns
    [ActiveStatus("")] and raises nothing. *)
Theorem worst_of_nothing_recorded (self : StatusManager) :
  __len__ self = 0 ->
  worst self = Ok (PyObj ActiveStatus "")
  /\ tier_of (PyObj ActiveStatus "") = Some Active.
Proof.
  intros H. unfold worst. rewrite H. split; reflexivity.
Qed.

Lemma worst_of_nothing_recorded_witness :
  worst (mk_StatusManager [] DEFAULT_STATUS_MAP) = Ok (PyObj ActiveStatus "")
  /\ tier_of (PyObj ActiveStatus "") = Some Active.
Proof.
  apply (worst_of_nothing_recorded (mk_StatusManager [] DEFAULT_STATUS_MAP)).
  reflexivity.
Defined.

(** ** The default table *)

(** [C8] Without a table, [__init__] stores [DEFAULT_STATUS_MAP], whose three
    entries map [BlockedStatusError], [WaitingStatusError] and
    [MaintenanceStatusError] to [BlockedStatus], [WaitingStatus] and
    [MaintenanceStatus]; no entry has a value of the Active tier. *)
Theorem default_status_map_three_tiers :
  __init__ None = Ok (mk_StatusManager [] DEFAULT_STATUS_MAP)
  /\ List.length DEFAULT_STATUS_MAP = 3
  /\ map snd DEFAULT_STATUS_MAP
     = [PyClass BlockedStatus; PyClass WaitingStatus; PyClass MaintenanceStatus]
  /\ dict_getitem DEFAULT_STATUS_MAP (PyClass BlockedStatusError)
     = Ok (PyClass (tier_class Blocked))
  /\ dict_getitem DEFAULT_STATUS_MAP (PyClass WaitingStatusError)
     = Ok (PyClass (tier_class Waiting))
  /\ dict_getitem DEFAULT_STATUS_MAP (PyClass MaintenanceStatusError)
     = Ok (PyClass (tier_class Maintenance))
  /\ NoDup (dict_keys DEFAULT_STATUS_MAP)
  /\ existsb (fun kv => match snd kv with
                        | PyClass c => has_tier Active (PyObj c "")
                        | _ => false
                        end) DEFAULT_STATUS_MAP = false.
Proof.
  repeat split; try reflexivity.
  unfold dict_keys, DEFAULT_STATUS_MAP. simpl.
  repeat constructor; simpl; intuition discriminate.
Qed.

(** [C9] Given the empty dict, [__init__] stores [DEFAULT_STATUS_MAP], not
    the empty table: the manager is the one built without an argument, which
    catches the three default exception classes. *)
Theorem empty_status_map_replaced_by_default :
  __init__ (Some []) = __init__ None
  /\ __init__ (Some []) = Ok (mk_StatusManager [] DEFAULT_STATUS_MAP)
  /\ DEFAULT_STATUS_MAP <> []
  /\ with_scope (mk_StatusManager [] DEFAULT_STATUS_MAP)
       (Some (mk_exn BlockedStatusError "m"))
     = (Completed,
        mk_StatusManager [PyObj BlockedStatus "m"] DEFAULT_STATUS_MAP).
Proof. repeat split; try reflexivity. discriminate. Qed.

(** ** Leaving a scope *)

Lemma dict_getitem_missing (d : dict) (k : pyval) :
  ~ In k (dict_keys d) -> dict_getitem d k = Raise (KeyError k).
Proof.
  intros Hk. unfold dict_getitem.
  destruct (find (fun kv => pyval_eqb (fst kv) k) d) as [kv|] eqn:E;
    [|reflexivity].
  apply find_some in E. destruct E as [Hin Heq].
  apply pyval_eqb_eq in Heq. elim Hk. rewrite <- Heq.
  unfold dict_keys. apply in_map. exact Hin.
Qed.

Lemma dict_getitem_present (d : dict) (k v : pyval) :
  dict_getitem d k = Ok v -> In (k, v) d.
Proof.
  unfold dict_getitem.
  destruct (find (fun kv => pyval_eqb (fst kv) k) d) as [[k' v']|] eqn:E;
    [|discriminate].
  intros [= <-]. apply find_some in E. destruct E as [Hin Heq].
  apply pyval_eqb_eq in Heq. simpl in *. subst k'. exact Hin.
Qed.

(** [C3] When the class of the raised exception is not itself a key of the
    table, whatever its base classes are, [__exit__] returns [False] and
    leaves the manager as it was, so the [with] block lets that same
    exception propagate and [statuses] is unchanged. *)
Theorem unmapped_exception_propagates (self : StatusManager) (e : exn) :
  ~ In (PyClass (exn_type e)) (dict_keys (_status_map self)) ->
  __exit__ self (Some e) = Ok (false, self)
  /\ with_scope self (Some e) = (Propagates e, self)
  /\ statuses (snd (with_scope self (Some e))) = statuses self.
Proof.
  intros Hk.
  assert (Hexit : __exit__ self (Some e) = Ok (false, self)).
  { unfold __exit__. simpl exc_type.
    rewrite (dict_getitem_missing _ _ Hk). reflexivity. }
  assert (Hwith : with_scope self (Some e) = (Propagates e, self)).
  { unfold with_scope, __enter__. rewrite Hexit. reflexivity. }
  rewrite Hwith. auto.
Qed.

(** The witness raises an instance of a subclass of [BlockedStatusError],
    which the default table maps, in a scope of the default manager. *)
Lemma unmapped_exception_propagates_witness :
  class_issubclass (UserClass "DiskFullError" BlockedStatusError) BlockedStatusError
  = true
  /\ __exit__ (mk_StatusManager [] DEFAULT_STATUS_MAP)
       (Some (mk_exn (UserClass "DiskFullError" BlockedStatusError) "disk full"))
     = Ok (false, mk_StatusManager [] DEFAULT_STATUS_MAP)
  /\ with_scope (mk_StatusManager [] DEFAULT_STATUS_MAP)
       (Some (mk_exn (UserClass "DiskFullError" BlockedStatusError) "disk full"))
     = (Propagates (mk_exn (UserClass "DiskFullError" BlockedStatusError) "disk full"),
        mk_StatusManager [] DEFAULT_STATUS_MAP)
  /\ statuses
       (snd (with_scope (mk_StatusManager [] DEFAULT_STATUS_MAP)
               (Some (mk_exn (UserClass "DiskFullError" BlockedStatusError)
                        "disk full"))))
     = [].
Proof.
  split; [reflexivity|].
  apply (unmapped_exception_propagates
           (mk_StatusManager [] DEFAULT_STATUS_MAP)
           (mk_exn (UserClass "DiskFullError" BlockedStatusError) "disk full")).
  simpl. intuition discriminate.
Defined.

(** *** Mapped exceptions *)

Lemma tier_class_instantiates (c : pyclass) (msg : string) :
  tier_of_class c <> None -> py_call (PyClass c) msg = Ok (PyObj c msg).
Proof.
  intros Ht. unfold py_call.
  assert (H : class_issubclass c StatusBase = true
              /\ class_issubclass c UnknownStatus = false).
  { induction c; simpl in Ht; try congruence; try (split; reflexivity).
    rewrite !class_issubclass_UserClass by discriminate. exact (IHc Ht). }
  destruct H as [-> ->].
  replace (pyclass_eqb c StatusBase) with false; [reflexivity|].
  symmetry. apply not_true_is_false. intros H.
  apply pyclass_eqb_eq in H. subst c. apply Ht. reflexivity.
Qed.

Lemma mapped_exception_recorded (self : StatusManager) (e : exn) (c : pyclass) :
  maps_to_tier_class self e c ->
  with_scope self (Some e)
  = (Completed,
     mk_StatusManager (statuses self ++ [PyObj c (exn_str e)]) (_status_map self)).
Proof.
  intros [Hget Ht]. unfold with_scope, __enter__, __exit__. simpl exc_type.
  rewrite Hget. cbn [bind try_except_KeyError str_exc_val].
  rewrite (tier_class_instantiates _ _ Ht). reflexivity.
Qed.

Lemma run_scopes_mapped (errors : list exn) :
  forall self : StatusManager,
  Forall (fun e => exists c, maps_to_tier_class self e c) errors ->
  run_scopes self (map Some errors)
  = (Completed,
     mk_StatusManager (statuses self ++ map (recorded_for self) errors)
                      (_status_map self)).
Proof.
  induction errors as [|e errors IH]; intros self Hall.
  - simpl. rewrite app_nil_r. destruct self; reflexivity.
  - inversion Hall as [|? ? [c Hc] Hrest]; subst.
    simpl. rewrite (mapped_exception_recorded self e c Hc).
    rewrite IH.
    + simpl. rewrite <- app_assoc. simpl.
      unfold recorded_for at 2. destruct Hc as [-> _]. reflexivity.
    + exact Hrest.
Qed.

(** [C2], as the code has it.  Take a manager with nothing recorded and [N]
    exceptions whose classes the table maps to classes of the four tiers,
    each raised in a scope of its own.  Every scope ends normally, so all [N] run; afterwards
    [__len__] is [N], and the [i]-th recorded status is an instance of the
    class the table gives for the [i]-th exception, with
    [str] of that exception as its message. *)
Theorem mapped_exceptions_recorded_in_order
    (self : StatusManager) (errors : list exn) :
  statuses self = [] ->
  Forall (fun e => exists c, maps_to_tier_class self e c) errors ->
  exists self',
    run_scopes self (map Some errors) = (Completed, self')
    /\ __len__ self' = List.length errors
    /\ forall i e, nth_error errors i = Some e ->
         exists c, maps_to_tier_class self e c
                   /\ nth_error (statuses self') i = Some (PyObj c (exn_str e)).
Proof.
  intros Hempty Hall. eexists. split; [exact (run_scopes_mapped errors self Hall)|].
  rewrite Hempty. simpl. split.
  - unfold __len__. simpl. apply length_map.
  - intros i e Hi.
    rewrite Forall_forall in Hall.
    destruct (Hall e (nth_error_In _ _ Hi)) as [c Hc].
    exists c. split; [exact Hc|].
    rewrite nth_error_map, Hi. simpl.
    unfold recorded_for. destruct Hc as [-> _]. reflexivity.
Qed.

Lemma mapped_exceptions_recorded_in_order_witness :
  exists self',
    run_scopes (mk_StatusManager [] DEFAULT_STATUS_MAP)
      (map Some [mk_exn WaitingStatusError "not yet"; mk_exn BlockedStatusError "no db"])
    = (Completed, self')
    /\ __len__ self' = 2
    /\ forall i e,
         nth_error [mk_exn WaitingStatusError "not yet"; mk_exn BlockedStatusError "no db"] i
         = Some e ->
         exists c,
           maps_to_tier_class (mk_StatusManager [] DEFAULT_STATUS_MAP) e c
           /\ nth_error (statuses self') i = Some (PyObj c (exn_str e)).
Proof.
  apply (mapped_exceptions_recorded_in_order
           (mk_StatusManager [] DEFAULT_STATUS_MAP)
           [mk_exn WaitingStatusError "not yet"; mk_exn BlockedStatusError "no db"]).
  - reflexivity.
  - repeat constructor.
    + exists WaitingStatus. split; [reflexivity | discriminate].
    + exists BlockedStatus. split; [reflexivity | discriminate].
Defined.

(** Counterexample to [C2] as stated: being a key is not enough.  The table
    [{CustomError: StatusBase}] passes [__init__]; a [CustomError] raised in
    a scope is then looked up, the call of the mapped class raises inside
    [__exit__], that exception leaves the scope in place of the
    [CustomError], and nothing is recorded. *)
Lemma mapped_key_to_base_class_is_not_absorbed :
  __init__ (Some [(PyClass CustomError, PyClass StatusBase)])
  = Ok (mk_StatusManager [] [(PyClass CustomError, PyClass StatusBase)])
  /\ In (PyClass (exn_type (mk_exn CustomError "m")))
        (dict_keys [(PyClass CustomError, PyClass StatusBase)])
  /\ (exists err,
        run_scopes (mk_StatusManager [] [(PyClass CustomError, PyClass StatusBase)])
          [Some (mk_exn CustomError "m")]
        = (ExitRaised err,
           mk_StatusManager [] [(PyClass CustomError, PyClass StatusBase)]))
  /\ ~ (forall (self : StatusManager) (errors : list exn),
          statuses self = [] ->
          Forall (fun e => In (PyClass (exn_type e)) (dict_keys (_status_map self)))
                 errors ->
          exists self',
            run_scopes self (map Some errors) = (Completed, self')
            /\ __len__ self' = List.length errors).
Proof.
  split; [reflexivity|]. split; [left; reflexivity|]. split.
  - eexists. reflexivity.
  - intros H.
    destruct (H (mk_StatusManager [] [(PyClass CustomError, PyClass StatusBase)])
                [mk_exn CustomError "m"]) as (self' & Hrun & _).
    + reflexivity.
    + constructor; [left; reflexivity | constructor].
    + discriminate Hrun.
Qed.

(** ** Validation of the table *)

Lemma validate_item_bad_key (k v : pyval) :
  is_exception_class k = false ->
  exists cause, validate_item k v = Raise (TypeError (key_error_msg k) (Some cause)).
Proof.
  intros Hk. unfold validate_item.
  destruct k; simpl in Hk; simpl; try (eexists; reflexivity).
  rewrite Hk. simpl. eexists; reflexivity.
Qed.

Lemma validate_item_bad_value (k v : pyval) :
  is_exception_class k = true -> is_status_class v = false ->
  exists cause, validate_item k v = Raise (TypeError (value_error_msg v) (Some cause)).
Proof.
  intros Hk Hv. unfold validate_item.
  destruct k; simpl in Hk; try discriminate. simpl. rewrite Hk. simpl.
  destruct v; simpl in Hv; simpl; try (eexists; reflexivity).
  rewrite Hv. simpl. eexists; reflexivity.
Qed.

Lemma validate_item_good (k v : pyval) :
  is_exception_class k = true -> is_status_class v = true ->
  validate_item k v = Ok tt.
Proof.
  intros Hk Hv. unfold validate_item.
  destruct k; simpl in Hk; try discriminate.
  destruct v; simpl in Hv; try discriminate.
  simpl. rewrite Hk, Hv. reflexivity.
Qed.

(** The error names the first entry that has a bad key or a bad value. *)
Lemma validate_status_map_rejects (d : dict) :
  (exists k v, In (k, v) d
               /\ (is_exception_class k = false \/ is_status_class v = false)) ->
  exists k v msg cause,
    In (k, v) d
    /\ _validate_status_map d = Raise (TypeError msg (Some cause))
    /\ ((is_exception_class k = false /\ msg = key_error_msg k)
        \/ (is_exception_class k = true /\ is_status_class v = false
            /\ msg = value_error_msg v)).
Proof.
  induction d as [|[k0 v0] d IH]; intros (k & v & Hin & Hbad).
  - destruct Hin.
  - simpl _validate_status_map.
    destruct (is_exception_class k0) eqn:Ek0.
    + destruct (is_status_class v0) eqn:Ev0.
      * rewrite (validate_item_good _ _ Ek0 Ev0). simpl bind.
        destruct Hin as [Heq|Hin].
        { injection Heq as <- <-. destruct Hbad; congruence. }
        destruct IH as (k' & v' & msg & cause & Hin' & Hrun & Hmsg).
        { exists k, v. auto. }
        exists k', v', msg, cause. repeat split; auto. right. exact Hin'.
      * destruct (validate_item_bad_value _ _ Ek0 Ev0) as [cause Hrun].
        rewrite Hrun. exists k0, v0, (value_error_msg v0), cause.
        repeat split; auto. left. reflexivity.
    + destruct (validate_item_bad_key k0 v0 Ek0) as [cause Hrun].
      rewrite Hrun. exists k0, v0, (key_error_msg k0), cause.
      repeat split; auto. left. reflexivity.
Qed.

(** [C5], as the code has it.  A table with a key that is not a class
    deriving from [Exception], or a value that is not a class deriving from
    [StatusBase], makes [__init__] raise a [TypeError] whose message
    interpolates the key or the value of such an entry of the table; no
    manager is returned. *)
Theorem init_rejects_invalid_status_map (status_map : dict) :
  (exists k v, In (k, v) status_map
               /\ (is_exception_class k = false \/ is_status_class v = false)) ->
  exists k v msg cause,
    In (k, v) status_map
    /\ __init__ (Some status_map) = Raise (TypeError msg cause)
    /\ ((is_exception_class k = false /\ In (Fmt k) msg)
        \/ (is_status_class v = false /\ In (Fmt v) msg)).
Proof.
  intros Hbad.
  destruct (validate_status_map_rejects status_map Hbad)
    as (k & v & msg & cause & Hin & Hrun & Hmsg).
  exists k, v, msg, (Some cause). split; [exact Hin|]. split.
  - unfold __init__. destruct status_map as [|kv d]; [destruct Hin|].
    rewrite Hrun. reflexivity.
  - destruct Hmsg as [[Hk ->]|(_ & Hv & ->)]; [left|right]; split; auto;
      simpl; auto.
Qed.

Lemma init_rejects_invalid_status_map_witness :
  exists k v msg cause,
    In (k, v) [(PyClass BlockedStatusError, PyClass BlockedStatus);
               (PyClass BlockedStatusError, PyClass C_dict);
               (PyInt 1, PyClass WaitingStatus)]
    /\ __init__ (Some [(PyClass BlockedStatusError, PyClass BlockedStatus);
                       (PyClass BlockedStatusError, PyClass C_dict);
                       (PyInt 1, PyClass WaitingStatus)])
       = Raise (TypeError msg cause)
    /\ ((is_exception_class k = false /\ In (Fmt k) msg)
        \/ (is_status_class v = false /\ In (Fmt v) msg)).
Proof.
  apply init_rejects_invalid_status_map.
  exists (PyInt 1), (PyClass WaitingStatus). split.
  - right. right. left. reflexivity.
  - left. reflexivity.
Defined.

(** Counterexample to [C5] as stated: a value deriving from [StatusBase]
    passes the check whether or not it is of one of the four tiers.
    [StatusBase] itself and [UnknownStatus] are accepted as values. *)
Lemma init_accepts_status_class_outside_tiers :
  is_tier_class (PyClass StatusBase) = false
  /\ __init__ (Some [(PyClass BlockedStatusError, PyClass StatusBase)])
     = Ok (mk_StatusManager [] [(PyClass BlockedStatusError, PyClass StatusBase)])
  /\ is_tier_class (PyClass UnknownStatus) = false
  /\ __init__ (Some [(PyClass BlockedStatusError, PyClass UnknownStatus)])
     = Ok (mk_StatusManager [] [(PyClass BlockedStatusError, PyClass UnknownStatus)])
  /\ ~ (forall status_map : dict,
          (exists k v, In (k, v) status_map
                       /\ (is_exception_class k = false \/ is_tier_class v = false)) ->
          exists e, __init__ (Some status_map) = Raise e).
Proof.
  repeat split; try reflexivity.
  intros H.
  destruct (H [(PyClass BlockedStatusError, PyClass StatusBase)]) as [e He].
  - exists (PyClass BlockedStatusError), (PyClass StatusBase). split.
    + left. reflexivity.
    + right. reflexivity.
  - discriminate He.
Qed.

(** * Further properties *)

(** ** Which tables pass validation *)

Lemma validate_status_map_valid_items (d : dict) :
  _validate_status_map d = Ok tt <-> forallb valid_item d = true.
Proof.
  induction d as [|[k v] d IH]; [split; reflexivity|].
  simpl _validate_status_map. simpl forallb. unfold valid_item at 1. simpl fst. simpl snd.
  destruct (is_exception_class k) eqn:Ek.
  - destruct (is_status_class v) eqn:Ev.
    + rewrite (validate_item_good _ _ Ek Ev). simpl. exact IH.
    + destruct (validate_item_bad_value _ _ Ek Ev) as [cause ->].
      simpl. split; discriminate.
  - destruct (validate_item_bad_key k v Ek) as [cause ->].
    simpl. split; discriminate.
Qed.

(** [_validate_status_map] returns normally on exactly the tables in which
    every key is a class deriving from [Exception] and every value is a
    class deriving from [StatusBase]. *)
Theorem validate_status_map_accepts_exactly_valid (status_map : dict) :
  _validate_status_map status_map = Ok tt
  <-> forall k v, In (k, v) status_map ->
        is_exception_class k = true /\ is_status_class v = true.
Proof.
  rewrite validate_status_map_valid_items, forallb_forall. split.
  - intros H k v Hin. apply andb_true_iff. exact (H (k, v) Hin).
  - intros H [k v] Hin. apply andb_true_iff. exact (H k v Hin).
Qed.

Lemma validate_status_map_first_invalid (good rest : dict) (k v : pyval) :
  forallb valid_item good = true -> valid_item (k, v) = false ->
  _validate_status_map (good ++ (k, v) :: rest)%list = validate_item k v
  /\ exists cause,
       validate_item k v
       = Raise (TypeError
                  (if is_exception_class k then value_error_msg v
                   else key_error_msg k)
                  (Some cause)).
Proof.
  intros Hgood Hbad. split.
  - induction good as [|[k0 v0] good IH]; simpl.
    + destruct (validate_item k v) as [[]|e] eqn:E; [|reflexivity].
      exfalso. unfold valid_item in Hbad. simpl in Hbad.
      destruct (is_exception_class k) eqn:Ek.
      * destruct (is_status_class v) eqn:Ev; [discriminate|].
        destruct (validate_item_bad_value _ _ Ek Ev) as [c Hc]. congruence.
      * destruct (validate_item_bad_key k v Ek) as [c Hc]. congruence.
    + simpl in Hgood. apply andb_true_iff in Hgood. destruct Hgood as [H0 Hgood].
      unfold valid_item in H0. apply andb_true_iff in H0. destruct H0 as [Hk0 Hv0].
      simpl in Hk0, Hv0. rewrite (validate_item_good _ _ Hk0 Hv0). simpl.
      exact (IH Hgood).
  - unfold valid_item in Hbad. simpl in Hbad.
    destruct (is_exception_class k) eqn:Ek.
    + destruct (is_status_class v) eqn:Ev; [discriminate|].
      exact (validate_item_bad_value _ _ Ek Ev).
    + exact (validate_item_bad_key k v Ek).
Qed.

(** The [TypeError] of [__init__] is about the first entry, in the order of
    the dict, that fails a check; its key is checked before its value, so an
    entry with a bad key is reported by its key whatever its value is, and
    the entries after it are not examined. *)
Theorem init_reports_first_invalid_item (good rest : dict) (k v : pyval) :
  forallb valid_item good = true -> valid_item (k, v) = false ->
  exists cause,
    __init__ (Some (good ++ (k, v) :: rest)%list)
    = Raise (TypeError
               (if is_exception_class k then value_error_msg v
                else key_error_msg k)
               (Some cause)).
Proof.
  intros Hgood Hbad.
  destruct (validate_status_map_first_invalid good rest k v Hgood Hbad)
    as [Hrun [cause Hitem]].
  exists cause. unfold __init__.
  destruct (good ++ (k, v) :: rest)%list as [|kv d] eqn:E.
  - destruct good; discriminate.
  - rewrite Hrun, Hitem. reflexivity.
Qed.

Lemma init_reports_first_invalid_item_witness :
  exists cause,
    __init__ (Some ([(PyClass BlockedStatusError, PyClass BlockedStatus)]
                    ++ (PyInt 1, PyInt 2)
                    :: [(PyClass C_dict, PyClass WaitingStatus)])%list)
    = Raise (TypeError
               (if is_exception_class (PyInt 1) then value_error_msg (PyInt 2)
                else key_error_msg (PyInt 1))
               (Some cause)).
Proof.
  apply init_reports_first_invalid_item; reflexivity.
Defined.

(** A key that is a class, but not one deriving from [Exception], is
    reported as "is not a class": the [TypeError] saying "is not a subclass
    of Exception" is raised inside the [try], caught by its
    [except TypeError] and kept only as the cause of the one that reaches
    the caller. *)
Theorem init_key_not_exception_reported_as_not_a_class
    (c : pyclass) (v : pyval) (rest : dict) :
  class_issubclass c C_Exception = false ->
  __init__ (Some ((PyClass c, v) :: rest))
  = Raise (TypeError
             [Lit "status_map key "; Fmt (PyClass c); Lit " is not a class"]
             (Some (TypeError
                      [Lit "status_map key "; Fmt (PyClass c);
                       Lit " is not a subclass of Exception"] None))).
Proof.
  intros Hc. unfold __init__. simpl _validate_status_map.
  unfold validate_item. simpl issubclass. rewrite Hc. reflexivity.
Qed.

Lemma init_key_not_exception_reported_as_not_a_class_witness :
  __init__ (Some ((PyClass C_dict, PyClass BlockedStatus) :: []))
  = Raise (TypeError
             [Lit "status_map key "; Fmt (PyClass C_dict); Lit " is not a class"]
             (Some (TypeError
                      [Lit "status_map key "; Fmt (PyClass C_dict);
                       Lit " is not a subclass of Exception"] None))).
Proof.
  apply init_key_not_exception_reported_as_not_a_class. reflexivity.
Defined.

(** The same for a value that is a class not deriving from [StatusBase],
    under a key that passes. *)
Theorem init_value_not_status_reported_as_not_a_class
    (k : pyval) (c : pyclass) (rest : dict) :
  is_exception_class k = true ->
  class_issubclass c StatusBase = false ->
  __init__ (Some ((k, PyClass c) :: rest))
  = Raise (TypeError
             [Lit "status_map value "; Fmt (PyClass c); Lit " is not a class"]
             (Some (TypeError
                      [Lit "status_map value "; Fmt (PyClass c);
                       Lit " is not a subclass of StatusBase"] None))).
Proof.
  intros Hk Hc. unfold __init__. simpl _validate_status_map.
  unfold validate_item. destruct k; simpl in Hk; try discriminate.
  simpl issubclass. rewrite Hk, Hc. reflexivity.
Qed.

Lemma init_value_not_status_reported_as_not_a_class_witness :
  __init__ (Some ((PyClass CustomError, PyClass C_dict) :: []))
  = Raise (TypeError
             [Lit "status_map value "; Fmt (PyClass C_dict); Lit " is not a class"]
             (Some (TypeError
                      [Lit "status_map value "; Fmt (PyClass C_dict);
                       Lit " is not a subclass of StatusBase"] None))).
Proof.
  apply init_value_not_status_reported_as_not_a_class; reflexivity.
Defined.

(** Whatever [__init__] returns has recorded nothing, and holds a table that
    passes both checks on every entry: [DEFAULT_STATUS_MAP] when no table or
    the empty one was given, and the given table otherwise. *)
Theorem init_returns_validated_manager
    (status_map : option dict) (self : StatusManager) :
  __init__ status_map = Ok self ->
  statuses self = []
  /\ forallb valid_item (_status_map self) = true
  /\ _status_map self
     = match status_map with
       | None => DEFAULT_STATUS_MAP
       | Some [] => DEFAULT_STATUS_MAP
       | Some (item :: items) => item :: items
       end.
Proof.
  unfold __init__. intros H.
  set (d := match status_map with
            | None => DEFAULT_STATUS_MAP
            | Some [] => DEFAULT_STATUS_MAP
            | Some d => d
            end) in *.
  destruct (_validate_status_map d) as [[]|e] eqn:E; [|discriminate].
  simpl in H. injection H as <-. simpl. repeat split.
  - apply validate_status_map_valid_items. exact E.
  - subst d. destruct status_map as [[|kv d']|]; reflexivity.
Qed.

Lemma init_returns_validated_manager_witness :
  statuses (mk_StatusManager [] [(PyClass CustomError, PyClass ErrorStatus)]) = []
  /\ forallb valid_item
       (_status_map (mk_StatusManager [] [(PyClass CustomError, PyClass ErrorStatus)]))
     = true
  /\ _status_map (mk_StatusManager [] [(PyClass CustomError, PyClass ErrorStatus)])
     = match Some [(PyClass CustomError, PyClass ErrorStatus)] with
       | None => DEFAULT_STATUS_MAP
       | Some [] => DEFAULT_STATUS_MAP
       | Some (item :: items) => item :: items
       end.
Proof.
  apply (init_returns_validated_manager
           (Some [(PyClass CustomError, PyClass ErrorStatus)])).
  reflexivity.
Defined.

(** ** What a scope does to the manager *)

Lemma dict_getitem_raises (d : dict) (k : pyval) (err : py_error) :
  dict_getitem d k = Raise err -> err = KeyError k /\ ~ In k (dict_keys d).
Proof.
  unfold dict_getitem.
  destruct (find (fun kv => pyval_eqb (fst kv) k) d) as [kv|] eqn:E;
    [discriminate|].
  intros [= <-]. split; [reflexivity|].
  unfold dict_keys. intros Hin. apply in_map_iff in Hin.
  destruct Hin as [kv [Hk Hin]].
  pose proof (find_none _ _ E kv Hin) as Hf. simpl in Hf.
  rewrite Hk, pyval_eqb_refl in Hf. discriminate.
Qed.

Lemma with_scope_missing_key (self : StatusManager) (e : exn) :
  ~ In (PyClass (exn_type e)) (dict_keys (_status_map self)) ->
  with_scope self (Some e) = (Propagates e, self).
Proof.
  intros Hk. unfold with_scope, __enter__, __exit__. simpl exc_type.
  rewrite (dict_getitem_missing _ _ Hk). reflexivity.
Qed.

Lemma exit_effect
    (self self' : StatusManager) (exc : option exn) (suppress : bool) :
  __exit__ self exc = Ok (suppress, self') ->
  _status_map self' = _status_map self
  /\ (if suppress
      then exists status, statuses self' = (statuses self ++ [status])%list
      else self' = self).
Proof.
  unfold __exit__.
  destruct (dict_getitem (_status_map self) (exc_type exc)) as [status_type|err] eqn:E.
  - cbn [bind try_except_KeyError].
    destruct (py_call status_type (str_exc_val exc)) as [status|err]; [|discriminate].
    cbn [bind]. intros [= <- <-]. simpl. split; [reflexivity|].
    exists status. reflexivity.
  - destruct (dict_getitem_raises _ _ _ E) as [-> _].
    cbn [bind try_except_KeyError]. intros [= <- <-]. split; reflexivity.
Qed.

(** [__exit__] returns [True] exactly when it has appended one status to
    [statuses]; when it returns [False] the manager is untouched.  It never
    changes the table. *)
Theorem exit_true_iff_one_status_appended
    (self self' : StatusManager) (exc : option exn) (suppress : bool) :
  __exit__ self exc = Ok (suppress, self') ->
  _status_map self' = _status_map self
  /\ (if suppress
      then exists status, statuses self' = (statuses self ++ [status])%list
      else self' = self).
Proof.
  intros H. unfold __exit__ in H.
  destruct (dict_getitem (_status_map self) (exc_type exc)) as [status_type|err] eqn:E.
  - cbn [bind try_except_KeyError] in H.
    destruct (py_call status_type (str_exc_val exc)) as [status|err];
      [|discriminate H].
    cbn [bind] in H. injection H as <- <-. simpl. split; [reflexivity|].
    exists status. reflexivity.
  - destruct (dict_getitem_raises _ _ _ E) as [-> _].
    cbn [bind try_except_KeyError] in H. injection H as <- <-.
    split; reflexivity.
Qed.

Lemma exit_true_iff_one_status_appended_witness :
  _status_map (mk_StatusManager [PyObj WaitingStatus "w"; PyObj BlockedStatus "b"]
                                DEFAULT_STATUS_MAP)
  = _status_map (mk_StatusManager [PyObj WaitingStatus "w"] DEFAULT_STATUS_MAP)
  /\ (if true
      then exists status,
             statuses (mk_StatusManager
                         [PyObj WaitingStatus "w"; PyObj BlockedStatus "b"]
                         DEFAULT_STATUS_MAP)
             = (statuses (mk_StatusManager [PyObj WaitingStatus "w"] DEFAULT_STATUS_MAP)
                ++ [status])%list
      else mk_StatusManager [PyObj WaitingStatus "w"; PyObj BlockedStatus "b"]
                            DEFAULT_STATUS_MAP
           = mk_StatusManager [PyObj WaitingStatus "w"] DEFAULT_STATUS_MAP).
Proof.
  apply (exit_true_iff_one_status_appended
           (mk_StatusManager [PyObj WaitingStatus "w"] DEFAULT_STATUS_MAP)
           (mk_StatusManager [PyObj WaitingStatus "w"; PyObj BlockedStatus "b"]
                             DEFAULT_STATUS_MAP)
           (Some (mk_exn BlockedStatusError "b")) true).
  reflexivity.
Defined.

Lemma with_scope_appends (self self' : StatusManager) (task : option exn)
    (out : outcome) :
  with_scope self task = (out, self') ->
  _status_map self' = _status_map self
  /\ exists added, statuses self' = (statuses self ++ added)%list
                   /\ List.length added <= 1.
Proof.
  unfold with_scope, __enter__.
  destruct (__exit__ self task) as [[suppress self1]|err] eqn:E.
  - destruct (exit_effect self self1 task suppress E)
      as [Hmap Hst].
    intros H.
    assert (self' = self1) by (destruct task, suppress; congruence). subst self1.
    split; [exact Hmap|].
    destruct suppress.
    + destruct Hst as [status ->]. exists [status]. split; [reflexivity | simpl; lia].
    + subst self'. exists []. rewrite app_nil_r. split; [reflexivity | simpl; lia].
  - intros [= _ <-]. split; [reflexivity|].
    exists []. rewrite app_nil_r. split; [reflexivity | simpl; lia].
Qed.

(** Over any run of scopes the table stays the same and [statuses] only
    grows at its end, by at most one status per task: what was recorded
    before is never removed, replaced or reordered. *)
Theorem run_scopes_append_only
    (tasks : list (option exn)) (self self' : StatusManager) (out : outcome) :
  run_scopes self tasks = (out, self') ->
  _status_map self' = _status_map self
  /\ exists added, statuses self' = (statuses self ++ added)%list
                   /\ List.length added <= List.length tasks.
Proof.
  revert self. induction tasks as [|task tasks IH]; intros self H.
  - simpl in H. injection H as _ <-. split; [reflexivity|].
    exists []. rewrite app_nil_r. split; [reflexivity | simpl; lia].
  - simpl in H.
    destruct (with_scope self task) as [out1 self1] eqn:E1.
    destruct (with_scope_appends _ _ _ _ E1) as [Hmap1 [added1 [Hst1 Hlen1]]].
    assert (Hcases : (out1 = Completed /\ run_scopes self1 tasks = (out, self'))
                     \/ self' = self1).
    { destruct out1; [left; auto | right; congruence | right; congruence]. }
    destruct Hcases as [[_ Hrest] | ->].
    + destruct (IH self1 Hrest) as [Hmap [added [Hst Hlen]]].
      split; [congruence|].
      exists (added1 ++ added)%list. rewrite Hst, Hst1, app_assoc.
      split; [reflexivity|]. rewrite length_app. simpl. lia.
    + split; [exact Hmap1|]. exists added1. split; [exact Hst1 | simpl; lia].
Qed.

Lemma run_scopes_append_only_witness :
  _status_map (mk_StatusManager [PyObj WaitingStatus "w"; PyObj BlockedStatus "b"]
                                DEFAULT_STATUS_MAP)
  = _status_map (mk_StatusManager [PyObj WaitingStatus "w"] DEFAULT_STATUS_MAP)
  /\ exists added,
       statuses (mk_StatusManager [PyObj WaitingStatus "w"; PyObj BlockedStatus "b"]
                                  DEFAULT_STATUS_MAP)
       = (statuses (mk_StatusManager [PyObj WaitingStatus "w"] DEFAULT_STATUS_MAP)
          ++ added)%list
       /\ List.length added
          <= List.length [None; Some (mk_exn BlockedStatusError "b");
                          Some (mk_exn C_Exception "boom");
                          Some (mk_exn WaitingStatusError "late")].
Proof.
  apply (run_scopes_append_only
           [None; Some (mk_exn BlockedStatusError "b");
            Some (mk_exn C_Exception "boom");
            Some (mk_exn WaitingStatusError "late")]
           (mk_StatusManager [PyObj WaitingStatus "w"] DEFAULT_STATUS_MAP)
           (mk_StatusManager [PyObj WaitingStatus "w"; PyObj BlockedStatus "b"]
                             DEFAULT_STATUS_MAP)
           (Propagates (mk_exn C_Exception "boom"))).
  reflexivity.
Defined.

Lemma valid_table_has_no_None_key (d : dict) :
  forallb valid_item d = true -> ~ In PyNone (dict_keys d).
Proof.
  intros Hd Hin. unfold dict_keys in Hin. apply in_map_iff in Hin.
  destruct Hin as [[k v] [Hk Hin]]. simpl in Hk. subst k.
  rewrite forallb_forall in Hd. specialize (Hd _ Hin).
  unfold valid_item in Hd. simpl in Hd. discriminate.
Qed.

(** On a manager whose table passes validation, a scope whose body raises
    nothing ends normally and leaves the manager as it was: [__exit__] looks
    [None] up, which is never a key of such a table. *)
Theorem scope_without_exception_records_nothing (self : StatusManager) :
  forallb valid_item (_status_map self) = true ->
  __exit__ self None = Ok (false, self)
  /\ with_scope self None = (Completed, self).
Proof.
  intros Hvalid.
  assert (Hexit : __exit__ self None = Ok (false, self)).
  { unfold __exit__. simpl exc_type.
    rewrite (dict_getitem_missing _ _ (valid_table_has_no_None_key _ Hvalid)).
    reflexivity. }
  split; [exact Hexit|].
  unfold with_scope, __enter__. rewrite Hexit. reflexivity.
Qed.

Lemma scope_without_exception_records_nothing_witness :
  __exit__ (mk_StatusManager [PyObj BlockedStatus "b"] DEFAULT_STATUS_MAP) None
  = Ok (false, mk_StatusManager [PyObj BlockedStatus "b"] DEFAULT_STATUS_MAP)
  /\ with_scope (mk_StatusManager [PyObj BlockedStatus "b"] DEFAULT_STATUS_MAP) None
     = (Completed, mk_StatusManager [PyObj BlockedStatus "b"] DEFAULT_STATUS_MAP).
Proof.
  apply (scope_without_exception_records_nothing
           (mk_StatusManager [PyObj BlockedStatus "b"] DEFAULT_STATUS_MAP)).
  reflexivity.
Defined.

Lemma run_scopes_app (pre rest : list (option exn)) :
  forall self self1 : StatusManager,
  run_scopes self pre = (Completed, self1) ->
  run_scopes self (pre ++ rest) = run_scopes self1 rest.
Proof.
  induction pre as [|task pre IH]; intros self self1 H.
  - simpl in H. injection H as <-. reflexivity.
  - simpl in *. destruct (with_scope self task) as [[| |] self2];
      try discriminate. exact (IH _ _ H).
Qed.

Lemma run_scopes_keeps_table (tasks : list (option exn)) :
  forall (self self' : StatusManager) (out : outcome),
  run_scopes self tasks = (out, self') -> _status_map self' = _status_map self.
Proof.
  induction tasks as [|task tasks IH]; intros self self' out H.
  - simpl in H. injection H as _ <-. reflexivity.
  - simpl in H. destruct (with_scope self task) as [out1 self1] eqn:E1.
    destruct (with_scope_appends _ _ _ _ E1) as [Hmap1 _].
    destruct out1.
    + rewrite (IH _ _ _ H). exact Hmap1.
    + injection H as _ <-. exact Hmap1.
    + injection H as _ <-. exact Hmap1.
Qed.

(** A loop of scopes ends at the first exception that leaves its scope.
    Whatever the tasks before it were, if their scopes all ended normally,
    an exception whose class is not a key of the table leaves the loop
    unchanged, the manager is exactly as those earlier scopes left it, and
    no task after it is run, so nothing of theirs is recorded. *)
Theorem run_scopes_stops_at_first_unmapped
    (self self1 : StatusManager) (before after : list (option exn)) (e : exn) :
  run_scopes self before = (Completed, self1) ->
  ~ In (PyClass (exn_type e)) (dict_keys (_status_map self)) ->
  run_scopes self (before ++ Some e :: after) = (Propagates e, self1).
Proof.
  intros Hbefore Hk.
  rewrite (run_scopes_app before (Some e :: after) self self1 Hbefore).
  simpl. rewrite with_scope_missing_key; [reflexivity|].
  rewrite (run_scopes_keeps_table before self self1 Completed Hbefore).
  exact Hk.
Qed.

Lemma run_scopes_stops_at_first_unmapped_witness :
  run_scopes (mk_StatusManager [] DEFAULT_STATUS_MAP)
    ([Some (mk_exn WaitingStatusError "0"); None;
      Some (mk_exn BlockedStatusError "1")]
     ++ Some (mk_exn BaseStatusError "2")
     :: [Some (mk_exn BlockedStatusError "3"); None])
  = (Propagates (mk_exn BaseStatusError "2"),
     mk_StatusManager [PyObj WaitingStatus "0"; PyObj BlockedStatus "1"]
                      DEFAULT_STATUS_MAP).
Proof.
  apply (run_scopes_stops_at_first_unmapped
           (mk_StatusManager [] DEFAULT_STATUS_MAP)
           (mk_StatusManager [PyObj WaitingStatus "0"; PyObj BlockedStatus "1"]
                             DEFAULT_STATUS_MAP)
           [Some (mk_exn WaitingStatusError "0"); None;
            Some (mk_exn BlockedStatusError "1")]
           [Some (mk_exn BlockedStatusError "3"); None]
           (mk_exn BaseStatusError "2")).
  - reflexivity.
  - simpl. intuition discriminate.
Defined.

(** With the default table a scope absorbs exactly the exceptions whose
    class is [BlockedStatusError], [WaitingStatusError] or
    [MaintenanceStatusError] itself; their common base [BaseStatusError],
    their subclasses and every other exception leave the scope. *)
Theorem default_table_catches_exactly_three
    (recorded : list pyval) (e : exn) :
  fst (with_scope (mk_StatusManager recorded DEFAULT_STATUS_MAP) (Some e)) = Completed
  <-> In (exn_type e) default_caught.
Proof.
  destruct e as [c msg]. simpl exn_type. split.
  - intros H.
    destruct (in_dec pyclass_eq_dec c default_caught) as [Hin|Hout]; [exact Hin|].
    exfalso. rewrite with_scope_missing_key in H; [discriminate H|].
    simpl. intros [Hk|[Hk|[Hk|[]]]]; injection Hk as <-; apply Hout; simpl; auto.
  - intros [<-|[<-|[<-|[]]]]; reflexivity.
Qed.

(** ** The selector on arbitrary lists *)

Lemma below_blocked_recognized (l : list pyval) :
  Forall below_blocked l -> Forall recognized l.
Proof. apply Forall_impl. intros v [H _]. exact H. Qed.

Lemma below_blocked_not_blocked (l : list pyval) :
  Forall below_blocked l -> Forall (fun v => tier_of v <> Some Blocked) l.
Proof. apply Forall_impl. intros v [_ H]. exact H. Qed.

(** Every list is free of [BlockedStatus] and unrecognized elements, or has
    a first element of one of these two kinds. *)
Lemma split_at_first_stop (l : list pyval) :
  Forall below_blocked l
  \/ exists pre x post,
       l = (pre ++ x :: post)%list /\ Forall below_blocked pre
       /\ (tier_of x = None \/ tier_of x = Some Blocked).
Proof.
  induction l as [|v l IH]; [left; constructor|].
  destruct (tier_of v) as [t|] eqn:Et.
  - destruct t.
    + right. exists [], v, l. repeat split; auto.
    + destruct IH as [IH|(pre & x & post & -> & Hpre & Hx)].
      * left. constructor; [|exact IH]. split; [unfold recognized|]; congruence.
      * right. exists (v :: pre), x, post. repeat split; auto.
        constructor; [|exact Hpre]. split; [unfold recognized|]; congruence.
    + destruct IH as [IH|(pre & x & post & -> & Hpre & Hx)].
      * left. constructor; [|exact IH]. split; [unfold recognized|]; congruence.
      * right. exists (v :: pre), x, post. repeat split; auto.
        constructor; [|exact Hpre]. split; [unfold recognized|]; congruence.
    + destruct IH as [IH|(pre & x & post & -> & Hpre & Hx)].
      * left. constructor; [|exact IH]. split; [unfold recognized|]; congruence.
      * right. exists (v :: pre), x, post. repeat split; auto.
        constructor; [|exact Hpre]. split; [unfold recognized|]; congruence.
  - right. exists [], v, l. repeat split; auto.
Qed.

Lemma scan_loop_stops (pre post : list pyval) (x : pyval) :
  Forall below_blocked pre ->
  forall s : scan,
  match tier_of x with
  | Some Blocked =>
      exists s', scan_loop s (pre ++ x :: post) = Ok s' /\ blocked s' = x
  | None => scan_loop s (pre ++ x :: post) = Raise (unrecognized_status x)
  | _ => True
  end.
Proof.
  induction 1 as [|v pre [Hv Hnb] Hpre IH]; intros s.
  - simpl. rewrite scan_step_tier.
    destruct (tier_of x) as [[]|]; auto. eexists; split; reflexivity.
  - simpl app. simpl scan_loop. rewrite scan_step_tier.
    destruct (tier_of v) as [[]|] eqn:Et; try congruence;
      try (elim Hv; exact Et); apply IH.
Qed.

Lemma length_app_cons_nonzero (pre post : list pyval) (x : pyval) :
  Nat.eqb (List.length (pre ++ x :: post)) 0 = false.
Proof. apply Nat.eqb_neq. rewrite length_app. simpl. lia. Qed.

Lemma get_first_worst_status_at_blocked (pre post : list pyval) (b : pyval) :
  tier_of b = Some Blocked -> Forall below_blocked pre ->
  get_first_worst_status (pre ++ b :: post) = Ok b.
Proof.
  intros Hb Hpre. unfold get_first_worst_status.
  rewrite length_app_cons_nonzero.
  pose proof (scan_loop_stops pre post b Hpre (mk_scan PyNone PyNone PyNone PyNone))
    as H.
  rewrite Hb in H. destruct H as [s' [-> Hs']]. simpl bind.
  rewrite Hs'. rewrite py_or_truthy by exact (tier_truthy _ _ Hb). reflexivity.
Qed.

Lemma get_first_worst_status_at_unrecognized (pre post : list pyval) (x : pyval) :
  tier_of x = None -> Forall below_blocked pre ->
  get_first_worst_status (pre ++ x :: post) = Raise (unrecognized_status x).
Proof.
  intros Hx Hpre. unfold get_first_worst_status.
  rewrite length_app_cons_nonzero.
  pose proof (scan_loop_stops pre post x Hpre (mk_scan PyNone PyNone PyNone PyNone))
    as H.
  rewrite Hx in H. rewrite H. reflexivity.
Qed.

(** The first [BlockedStatus] is the answer whatever follows it: when only
    Waiting, Maintenance and Active statuses precede it, it is returned even
    if later elements are not statuses at all. *)
Theorem first_blocked_wins_whatever_follows (pre post : list pyval) (b : pyval) :
  tier_of b = Some Blocked -> Forall below_blocked pre ->
  get_first_worst_status (pre ++ b :: post) = Ok b.
Proof.
  intros Hb Hpre. unfold get_first_worst_status.
  rewrite length_app_cons_nonzero.
  pose proof (scan_loop_stops pre post b Hpre (mk_scan PyNone PyNone PyNone PyNone))
    as Hscan.
  rewrite Hb in Hscan. destruct Hscan as [s' [Hrun Hblocked]].
  rewrite Hrun. simpl bind. rewrite Hblocked. f_equal.
  apply py_or_truthy. exact (tier_truthy _ _ Hb).
Qed.

Lemma first_blocked_wins_whatever_follows_witness :
  get_first_worst_status
    ([PyObj ActiveStatus "a"; PyObj WaitingStatus "w"]
     ++ PyObj BlockedStatus "b" :: [PyInt 7; PyObj BlockedStatus "b2"])
  = Ok (PyObj BlockedStatus "b").
Proof.
  apply first_blocked_wins_whatever_follows.
  - reflexivity.
  - repeat constructor; discriminate.
Defined.

(** Whenever [get_first_worst_status] returns, on any list at all, what it
    returns is an element of the list that is an instance of one of the four
    tier classes: never [None], never a value made up by the function. *)
Theorem get_first_worst_status_result_is_recognized_element
    (statuses : list pyval) (r : pyval) :
  get_first_worst_status statuses = Ok r -> In r statuses /\ recognized r.
Proof.
  intros H.
  destruct (split_at_first_stop statuses)
    as [Hall|(pre & x & post & -> & Hpre & [Hx|Hx])].
  - destruct statuses as [|v l]; [discriminate H|].
    destruct (get_first_worst_status_selects (v :: l))
      as (i & r' & Hrun & t & Hi & Ht & _).
    + discriminate.
    + exact (below_blocked_recognized _ Hall).
    + assert (r' = r) by congruence. subst r'. split.
      * exact (nth_error_In _ _ Hi).
      * unfold recognized. congruence.
  - rewrite (get_first_worst_status_at_unrecognized pre post x Hx Hpre) in H.
    discriminate H.
  - rewrite (get_first_worst_status_at_blocked pre post x Hx Hpre) in H.
    injection H as <-. split.
    + apply in_or_app. right. left. reflexivity.
    + unfold recognized. congruence.
Qed.

Lemma get_first_worst_status_result_is_recognized_element_witness :
  In (PyObj BlockedStatus "b") [PyObj BlockedStatus "b"; PyStr "not a status"]
  /\ recognized (PyObj BlockedStatus "b").
Proof.
  apply (get_first_worst_status_result_is_recognized_element
           [PyObj BlockedStatus "b"; PyStr "not a status"]).
  reflexivity.
Defined.

(** [get_first_worst_status] fails in two ways only: with the [ValueError]
    on the empty list, and with the [TypeError] naming the first element
    that is not of a known tier, which happens when no [BlockedStatus]
    comes before that element. *)
Theorem get_first_worst_status_failures (statuses : list pyval) (err : py_error) :
  get_first_worst_status statuses = Raise err ->
  (statuses = [] /\ err = ValueError [Lit "No statuses provided"])
  \/ exists pre x post,
       statuses = (pre ++ x :: post)%list
       /\ Forall below_blocked pre /\ tier_of x = None
       /\ err = unrecognized_status x.
Proof.
  intros H.
  destruct (split_at_first_stop statuses)
    as [Hall|(pre & x & post & -> & Hpre & [Hx|Hx])].
  - destruct statuses as [|v l].
    + left. split; [reflexivity|].
      unfold get_first_worst_status in H. simpl in H. congruence.
    + exfalso.
      destruct (get_first_worst_status_selects (v :: l)) as (i & r & Hrun & _).
      * discriminate.
      * exact (below_blocked_recognized _ Hall).
      * congruence.
  - right. exists pre, x, post.
    rewrite (get_first_worst_status_at_unrecognized pre post x Hx Hpre) in H.
    injection H as <-. auto.
  - rewrite (get_first_worst_status_at_blocked pre post x Hx Hpre) in H.
    discriminate H.
Qed.

Lemma get_first_worst_status_failures_witness :
  ([PyObj WaitingStatus "w"; PyObj ErrorStatus "e"; PyInt 3] = []
   /\ unrecognized_status (PyObj ErrorStatus "e")
      = ValueError [Lit "No statuses provided"])
  \/ exists pre x post,
       [PyObj WaitingStatus "w"; PyObj ErrorStatus "e"; PyInt 3]
       = (pre ++ x :: post)%list
       /\ Forall below_blocked pre /\ tier_of x = None
       /\ unrecognized_status (PyObj ErrorStatus "e") = unrecognized_status x.
Proof.
  apply (get_first_worst_status_failures
           [PyObj WaitingStatus "w"; PyObj ErrorStatus "e"; PyInt 3]).
  reflexivity.
Defined.

(** ** Recording more statuses *)

Lemma first_of_app (t : tier) (l p : list pyval) :
  first_of t (l ++ p)
  = match first_of t l with
    | Some x => Some x
    | None => first_of t p
    end.
Proof.
  induction l as [|v l IH]; [reflexivity|].
  simpl app. rewrite !first_of_cons. destruct (has_tier t v); [reflexivity|exact IH].
Qed.

Lemma first_of_tier (t : tier) (l : list pyval) (x : pyval) :
  first_of t l = Some x -> tier_of x = Some t.
Proof. intros H. apply find_some in H. apply has_tier_iff. exact (proj2 H). Qed.

Lemma first_of_at_most (t u : tier) (p : list pyval) :
  Forall (at_most t) p -> severity t < severity u -> first_of u p = None.
Proof.
  intros Hp Hlt. destruct (first_of u p) as [x|] eqn:E; [|reflexivity].
  exfalso. pose proof (first_of_tier _ _ _ E) as Hx.
  apply find_some in E. destruct E as [Hin _].
  rewrite Forall_forall in Hp. destruct (Hp x Hin) as (u' & Hu' & Hle).
  assert (u' = u) by congruence. subst u'. lia.
Qed.

Lemma get_first_worst_status_Ok_first_worst (l : list pyval) (r : pyval) :
  Forall recognized l -> get_first_worst_status l = Ok r -> first_worst l = Some r.
Proof.
  intros Hl H.
  assert (Hne : l <> []) by (intros ->; discriminate H).
  destruct (first_worst_some l Hne Hl) as [r' Hr'].
  rewrite (get_first_worst_status_first_worst l r' Hl Hr') in H. congruence.
Qed.

Lemma first_worst_stable (l p : list pyval) (r : pyval) (t : tier) :
  first_worst l = Some r -> tier_of r = Some t -> Forall (at_most t) p ->
  first_worst (l ++ p) = Some r.
Proof.
  unfold first_worst. intros Hr Ht Hp. rewrite !first_of_app.
  destruct (first_of Blocked l) as [b|] eqn:Eb; [exact Hr|].
  destruct (first_of Waiting l) as [w|] eqn:Ew.
  { injection Hr as <-. pose proof (first_of_tier _ _ _ Ew) as Hw.
    assert (t = Waiting) by congruence. subst t.
    rewrite (first_of_at_most Waiting Blocked p Hp) by (simpl; lia). reflexivity. }
  destruct (first_of Maintenance l) as [m|] eqn:Em.
  { injection Hr as <-. pose proof (first_of_tier _ _ _ Em) as Hm.
    assert (t = Maintenance) by congruence. subst t.
    rewrite (first_of_at_most Maintenance Blocked p Hp) by (simpl; lia).
    rewrite (first_of_at_most Maintenance Waiting p Hp) by (simpl; lia).
    reflexivity. }
  pose proof (first_of_tier _ _ _ Hr) as Ha.
  assert (t = Active) by congruence. subst t.
  rewrite (first_of_at_most Active Blocked p Hp) by (simpl; lia).
  rewrite (first_of_at_most Active Waiting p Hp) by (simpl; lia).
  rewrite (first_of_at_most Active Maintenance p Hp) by (simpl; lia).
  rewrite Hr. reflexivity.
Qed.

(** The first of the worst keeps its place: once [get_first_worst_status]
    returns [r] on a list of recognized statuses, appending statuses that
    are no more severe than [r], equally severe ones included, does not
    change the answer. *)
Theorem later_statuses_of_no_worse_tier_do_not_displace
    (statuses more : list pyval) (r : pyval) (t : tier) :
  Forall recognized statuses ->
  get_first_worst_status statuses = Ok r -> tier_of r = Some t ->
  Forall (at_most t) more ->
  get_first_worst_status (statuses ++ more) = Ok r.
Proof.
  intros Hl Hr Ht Hmore.
  apply get_first_worst_status_first_worst.
  - apply Forall_app. split; [exact Hl|].
    revert Hmore. apply Forall_impl. intros v (u & Hu & _).
    unfold recognized. congruence.
  - apply (first_worst_stable statuses more r t); try assumption.
    exact (get_first_worst_status_Ok_first_worst _ _ Hl Hr).
Qed.

Lemma later_statuses_of_no_worse_tier_do_not_displace_witness :
  get_first_worst_status
    ([PyObj ActiveStatus "a"; PyObj WaitingStatus "first"]
     ++ [PyObj WaitingStatus "second"; PyObj MaintenanceStatus "m"])
  = Ok (PyObj WaitingStatus "first").
Proof.
  apply (later_statuses_of_no_worse_tier_do_not_displace
           [PyObj ActiveStatus "a"; PyObj WaitingStatus "first"]
           [PyObj WaitingStatus "second"; PyObj MaintenanceStatus "m"]
           (PyObj WaitingStatus "first") Waiting).
  - repeat constructor; discriminate.
  - reflexivity.
  - reflexivity.
  - repeat constructor.
    + exists Waiting. split; [reflexivity | simpl; lia].
    + exists Maintenance. split; [reflexivity | simpl; lia].
Defined.

(** Appending recognized statuses never makes the answer less severe. *)
Theorem more_statuses_never_lower_the_severity (statuses more : list pyval) :
  statuses <> [] -> Forall recognized statuses -> Forall recognized more ->
  exists r r' t t',
    get_first_worst_status statuses = Ok r
    /\ get_first_worst_status (statuses ++ more) = Ok r'
    /\ tier_of r = Some t /\ tier_of r' = Some t'
    /\ severity t <= severity t'.
Proof.
  intros Hne Hl Hmore.
  destruct (get_first_worst_status_selects statuses Hne Hl)
    as (i & r & Hrun & t & Hi & Ht & _).
  destruct (get_first_worst_status_selects (statuses ++ more))
    as (i' & r' & Hrun' & t' & Hi' & Ht' & Hsev' & _).
  - intros H. apply app_eq_nil in H. destruct H as [H _]. exact (Hne H).
  - apply Forall_app. split; assumption.
  - exists r, r', t, t'. repeat split; try assumption.
    apply (Hsev' r t); [|exact Ht].
    apply in_or_app. left. exact (nth_error_In _ _ Hi).
Qed.

Lemma more_statuses_never_lower_the_severity_witness :
  exists r r' t t',
    get_first_worst_status [PyObj MaintenanceStatus "m"] = Ok r
    /\ get_first_worst_status
         ([PyObj MaintenanceStatus "m"] ++ [PyObj ActiveStatus "a"; PyObj BlockedStatus "b"])
       = Ok r'
    /\ tier_of r = Some t /\ tier_of r' = Some t'
    /\ severity t <= severity t'.
Proof.
  apply more_statuses_never_lower_the_severity.
  - discriminate.
  - repeat constructor; discriminate.
  - repeat constructor; discriminate.
Defined.

(** The tier of the answer does not depend on the order of the statuses:
    two lists of recognized statuses that are rearrangements of each other
    give answers of the same tier (the messages may differ). *)
Theorem tier_of_worst_is_order_independent (statuses statuses' : list pyval) :
  Permutation statuses statuses' ->
  statuses <> [] -> Forall recognized statuses ->
  exists r r' t,
    get_first_worst_status statuses = Ok r
    /\ get_first_worst_status statuses' = Ok r'
    /\ tier_of r = Some t /\ tier_of r' = Some t.
Proof.
  intros Hperm Hne Hl.
  destruct (get_first_worst_status_selects statuses Hne Hl)
    as (i & r & Hrun & t & Hi & Ht & Hsev & _).
  destruct (get_first_worst_status_selects statuses')
    as (i' & r' & Hrun' & t' & Hi' & Ht' & Hsev' & _).
  - intros ->. apply Permutation_sym, Permutation_nil in Hperm. exact (Hne Hperm).
  - rewrite Forall_forall in *. intros x Hx. apply Hl.
    exact (Permutation_in x (Permutation_sym Hperm) Hx).
  - exists r, r', t. repeat split; try assumption.
    rewrite Ht'. f_equal. apply severity_inj. apply Nat.le_antisymm.
    + apply (Hsev r' t'); [|exact Ht'].
      exact (Permutation_in r' (Permutation_sym Hperm) (nth_error_In _ _ Hi')).
    + apply (Hsev' r t); [|exact Ht].
      exact (Permutation_in r Hperm (nth_error_In _ _ Hi)).
Qed.

Lemma tier_of_worst_is_order_independent_witness :
  exists r r' t,
    get_first_worst_status
      [PyObj WaitingStatus "1"; PyObj ActiveStatus "2"; PyObj WaitingStatus "3"] = Ok r
    /\ get_first_worst_status
         [PyObj ActiveStatus "2"; PyObj WaitingStatus "3"; PyObj WaitingStatus "1"] = Ok r'
    /\ tier_of r = Some t /\ tier_of r' = Some t.
Proof.
  apply tier_of_worst_is_order_independent.
  - apply (Permutation_cons_append
             [PyObj ActiveStatus "2"; PyObj WaitingStatus "3"] (PyObj WaitingStatus "1")).
  - discriminate.
  - repeat constructor; discriminate.
Defined.

(** ** Tables that map to the four tiers *)

Lemma tier_valued_lookup (self : StatusManager) (k v : pyval) :
  tier_valued self -> dict_getitem (_status_map self) k = Ok v ->
  is_exception_class k = true
  /\ exists c, v = PyClass c /\ tier_of_class c <> None.
Proof.
  unfold tier_valued. intros Hself Hget.
  apply dict_getitem_present in Hget.
  rewrite forallb_forall in Hself. specialize (Hself _ Hget).
  unfold tier_item in Hself. apply andb_true_iff in Hself.
  destruct Hself as [Hk Hv]. simpl in Hk, Hv. split; [exact Hk|].
  destruct v as [| | |c|]; simpl in Hv; try discriminate.
  exists c. split; [reflexivity|].
  destruct (tier_of_class c); [discriminate|discriminate Hv].
Qed.

Lemma recorded_status_recognized (c : pyclass) (msg : string) :
  tier_of_class c <> None -> recognized (PyObj c msg).
Proof. intros H. exact H. Qed.

Lemma with_scope_tier_valued (self : StatusManager) (task : option exn) :
  tier_valued self -> Forall recognized (statuses self) ->
  exists out self',
    with_scope self task = (out, self')
    /\ _status_map self' = _status_map self
    /\ Forall recognized (statuses self')
    /\ (out = Completed
        \/ exists e, task = Some e
                     /\ ~ In (PyClass (exn_type e)) (dict_keys (_status_map self))
                     /\ out = Propagates e).
Proof.
  intros Hself Hrec.
  destruct (dict_getitem (_status_map self) (exc_type task)) as [v|err] eqn:E.
  - destruct (tier_valued_lookup self _ v Hself E) as [Hk (c & -> & Hc)].
    destruct task as [e|]; [|discriminate Hk].
    exists Completed. eexists. split.
    + apply (mapped_exception_recorded self e c). split; assumption.
    + simpl. repeat split; auto.
      apply Forall_app. split; [exact Hrec|].
      constructor; [exact (recorded_status_recognized c _ Hc) | constructor].
  - destruct (dict_getitem_raises _ _ _ E) as [-> Hk].
    destruct task as [e|].
    + exists (Propagates e), self. split; [exact (with_scope_missing_key self e Hk)|].
      repeat split; auto. right. exists e. auto.
    + exists Completed, self. split.
      * unfold with_scope, __enter__, __exit__. rewrite E. reflexivity.
      * repeat split; auto.
Qed.

Lemma worst_of_recognized (self : StatusManager) :
  Forall recognized (statuses self) ->
  exists r, worst self = Ok r /\ recognized r.
Proof.
  intros Hrec. unfold worst, __len__.
  destruct (statuses self) as [|v l] eqn:E.
  - exists (PyObj ActiveStatus ""). split; [reflexivity | discriminate].
  - simpl Nat.eqb. cbv iota.
    destruct (get_first_worst_status_selects (v :: l))
      as (i & r & Hrun & t & _ & Ht & _); [discriminate | exact Hrec |].
    exists r. split; [exact Hrun|]. unfold recognized. congruence.
Qed.

(** A manager whose table maps exception classes to classes of the four
    tiers cannot fail.  Whatever the tasks do, [__exit__] never raises: the
    loop of scopes either runs to its end or is left by an exception of one
    of the tasks whose class is not a key; and afterwards [worst] returns a
    status of a known tier instead of raising. *)
Theorem tier_valued_manager_never_fails
    (tasks : list (option exn)) (self : StatusManager) :
  tier_valued self -> Forall recognized (statuses self) ->
  exists out self',
    run_scopes self tasks = (out, self')
    /\ (out = Completed
        \/ exists e, In (Some e) tasks
                     /\ ~ In (PyClass (exn_type e)) (dict_keys (_status_map self))
                     /\ out = Propagates e)
    /\ exists r, worst self' = Ok r /\ recognized r.
Proof.
  revert self. induction tasks as [|task tasks IH]; intros self Hself Hrec.
  - exists Completed, self. repeat split; auto. exact (worst_of_recognized self Hrec).
  - destruct (with_scope_tier_valued self task Hself Hrec)
      as (out1 & self1 & Hrun1 & Hmap1 & Hrec1 & Hout1).
    simpl run_scopes. rewrite Hrun1.
    destruct Hout1 as [-> | (e & -> & Hk & ->)].
    + destruct (IH self1) as (out & self' & Hrun & Hout & Hworst).
      * unfold tier_valued in *. rewrite Hmap1. exact Hself.
      * exact Hrec1.
      * exists out, self'. split; [exact Hrun|]. split; [|exact Hworst].
        destruct Hout as [-> | (e & Hin & Hk & ->)]; [left; reflexivity|].
        right. exists e. rewrite Hmap1 in Hk. repeat split; auto. right. exact Hin.
    + exists (Propagates e), self1. split; [reflexivity|]. split.
      * right. exists e. repeat split; auto. left. reflexivity.
      * exact (worst_of_recognized self1 Hrec1).
Qed.

Lemma tier_valued_manager_never_fails_witness :
  exists out self',
    run_scopes (mk_StatusManager [] DEFAULT_STATUS_MAP)
      [Some (mk_exn WaitingStatusError "w"); None; Some (mk_exn C_Exception "x")]
    = (out, self')
    /\ (out = Completed
        \/ exists e,
             In (Some e)
                [Some (mk_exn WaitingStatusError "w"); None;
                 Some (mk_exn C_Exception "x")]
             /\ ~ In (PyClass (exn_type e))
                     (dict_keys (_status_map (mk_StatusManager [] DEFAULT_STATUS_MAP)))
             /\ out = Propagates e)
    /\ exists r, worst self' = Ok r /\ recognized r.
Proof.
  apply (tier_valued_manager_never_fails
           [Some (mk_exn WaitingStatusError "w"); None; Some (mk_exn C_Exception "x")]
           (mk_StatusManager [] DEFAULT_STATUS_MAP)).
  - reflexivity.
  - constructor.
Defined.

(** After a run of scopes in which every exception was mapped to a class of
    the four tiers, [worst] returns the status recorded for one of the
    raised exceptions, with that exception's message: the earliest among
    those recorded with the most severe tier. *)
Theorem worst_reports_earliest_most_severe_exception
    (self : StatusManager) (errors : list exn) :
  statuses self = [] -> errors <> [] ->
  Forall (fun e => exists c, maps_to_tier_class self e c) errors ->
  exists self' i e c,
    run_scopes self (map Some errors) = (Completed, self')
    /\ nth_error errors i = Some e
    /\ maps_to_tier_class self e c
    /\ worst self' = Ok (PyObj c (exn_str e))
    /\ first_worst_at (statuses self') i (PyObj c (exn_str e)).
Proof.
  intros Hempty Hne Hall.
  pose proof (run_scopes_mapped errors self Hall) as Hrun.
  rewrite Hempty in Hrun. simpl app in Hrun.
  set (recorded := map (recorded_for self) errors) in *.
  assert (Hrec : Forall recognized recorded).
  { subst recorded. apply Forall_forall. intros x Hx.
    apply in_map_iff in Hx. destruct Hx as (e & <- & He).
    rewrite Forall_forall in Hall. destruct (Hall e He) as (c & Hget & Hc).
    unfold recorded_for. rewrite Hget. exact Hc. }
  assert (Hne' : recorded <> []).
  { subst recorded. destruct errors; [congruence | discriminate]. }
  destruct (get_first_worst_status_selects recorded Hne' Hrec)
    as (i & r & Hworst & Hat).
  assert (Hi : nth_error recorded i = Some r).
  { destruct Hat as (t & Hi & _). exact Hi. }
  subst recorded. rewrite nth_error_map in Hi.
  destruct (nth_error errors i) as [e|] eqn:Ee; [|discriminate Hi].
  simpl in Hi. injection Hi as Hr.
  rewrite Forall_forall in Hall.
  destruct (Hall e (nth_error_In _ _ Ee)) as (c & Hc).
  assert (Hrc : r = PyObj c (exn_str e)).
  { rewrite <- Hr. unfold recorded_for. destruct Hc as [-> _]. reflexivity. }
  subst r. rewrite Hrc in Hworst, Hat.
  eexists. exists i, e, c. split; [exact Hrun|].
  split; [exact Ee|]. split; [exact Hc|]. split; [|exact Hat].
  unfold worst, __len__. simpl statuses.
  destruct (map (recorded_for self) errors) as [|x l] eqn:Em; [congruence|].
  exact Hworst.
Qed.

Lemma worst_reports_earliest_most_severe_exception_witness :
  exists self' i e c,
    run_scopes (mk_StatusManager [] DEFAULT_STATUS_MAP)
      (map Some [mk_exn MaintenanceStatusError "upgrading";
                 mk_exn WaitingStatusError "no relation";
                 mk_exn WaitingStatusError "no leader"])
    = (Completed, self')
    /\ nth_error [mk_exn MaintenanceStatusError "upgrading";
                  mk_exn WaitingStatusError "no relation";
                  mk_exn WaitingStatusError "no leader"] i = Some e
    /\ maps_to_tier_class (mk_StatusManager [] DEFAULT_STATUS_MAP) e c
    /\ worst self' = Ok (PyObj c (exn_str e))
    /\ first_worst_at (statuses self') i (PyObj c (exn_str e)).
Proof.
  apply (worst_reports_earliest_most_severe_exception
           (mk_StatusManager [] DEFAULT_STATUS_MAP)
           [mk_exn MaintenanceStatusError "upgrading";
            mk_exn WaitingStatusError "no relation";
            mk_exn WaitingStatusError "no leader"]).
  - reflexivity.
  - discriminate.
  - repeat constructor.
    + exists MaintenanceStatus. split; [reflexivity | discriminate].
    + exists WaitingStatus. split; [reflexivity | discriminate].
    + exists WaitingStatus. split; [reflexivity | discriminate].
Defined.

(** ** Tables that pass validation *)

(** A non-empty table that passes both checks on every entry is stored as
    given, with nothing recorded: the default entries are not added to
    it. *)
Theorem init_stores_valid_table_as_given (status_map : dict) :
  status_map <> [] -> forallb valid_item status_map = true ->
  __init__ (Some status_map) = Ok (mk_StatusManager [] status_map).
Proof.
  intros Hne Hvalid. unfold __init__.
  destruct status_map as [|kv d]; [congruence|].
  rewrite (proj2 (validate_status_map_valid_items (kv :: d)) Hvalid).
  reflexivity.
Qed.

Lemma init_stores_valid_table_as_given_witness :
  __init__ (Some [(PyClass CustomError, PyClass BlockedStatus)])
  = Ok (mk_StatusManager [] [(PyClass CustomError, PyClass BlockedStatus)])
  /\ dict_getitem [(PyClass CustomError, PyClass BlockedStatus)]
       (PyClass BlockedStatusError)
     = Raise (KeyError (PyClass BlockedStatusError)).
Proof.
  split; [|reflexivity].
  apply init_stores_valid_table_as_given; [discriminate | reflexivity].
Defined.

(** Passing validation does not make [worst] safe.  When the table maps the
    class of an exception to a status class outside the four tiers that can
    be instantiated with a message, the scope absorbs the exception and
    records that status; if no [BlockedStatus] was recorded before it,
    [worst] then raises the [TypeError] of [get_first_worst_status] about a
    recorded status that is outside the four tiers: the one just recorded
    when every status recorded before it is of a known tier, an earlier one
    otherwise. *)
Theorem status_outside_tiers_is_recorded_then_breaks_worst
    (self : StatusManager) (e : exn) (c : pyclass) :
  dict_getitem (_status_map self) (PyClass (exn_type e)) = Ok (PyClass c) ->
  tier_of_class c = None ->
  py_call (PyClass c) (exn_str e) = Ok (PyObj c (exn_str e)) ->
  Forall (fun v => tier_of v <> Some Blocked) (statuses self) ->
  with_scope self (Some e)
  = (Completed,
     mk_StatusManager (statuses self ++ [PyObj c (exn_str e)]) (_status_map self))
  /\ exists y,
       In y (statuses self ++ [PyObj c (exn_str e)])
       /\ tier_of y = None
       /\ worst (mk_StatusManager (statuses self ++ [PyObj c (exn_str e)])
                                  (_status_map self))
          = Raise (unrecognized_status y)
       /\ (Forall recognized (statuses self) -> y = PyObj c (exn_str e)).
Proof.
  intros Hget Hc Hcall Hnb. split.
  - unfold with_scope, __enter__, __exit__. simpl exc_type. rewrite Hget.
    cbn [bind try_except_KeyError str_exc_val]. rewrite Hcall. reflexivity.
  - assert (Hworst : forall err,
              get_first_worst_status (statuses self ++ [PyObj c (exn_str e)]) = err ->
              worst (mk_StatusManager (statuses self ++ [PyObj c (exn_str e)])
                                      (_status_map self)) = err).
    { intros err <-. unfold worst, __len__. simpl statuses.
      rewrite length_app_cons_nonzero. reflexivity. }
    destruct (scan_loop_unrecognized (statuses self) [] (PyObj c (exn_str e)) Hc Hnb
                (mk_scan PyNone PyNone PyNone PyNone)) as (y & Hy & Hty & Hscan).
    assert (Hrun : get_first_worst_status (statuses self ++ [PyObj c (exn_str e)])
                   = Raise (unrecognized_status y)).
    { unfold get_first_worst_status. rewrite length_app_cons_nonzero.
      rewrite Hscan. reflexivity. }
    exists y. split; [exact Hy|]. split; [exact Hty|].
    split; [exact (Hworst _ Hrun)|].
    intros Hrec.
    assert (Hbelow : Forall below_blocked (statuses self)).
    { rewrite Forall_forall in *. intros v Hv. split; auto. }
    rewrite (get_first_worst_status_at_unrecognized
               (statuses self) [] (PyObj c (exn_str e)) Hc Hbelow) in Hrun.
    unfold unrecognized_status in Hrun. congruence.
Qed.

(** The witness raises the exception twice: the second scope records
    [ErrorStatus("second")], and [worst] raises about [ErrorStatus("first")],
    recorded by the scope before. *)
Lemma status_outside_tiers_is_recorded_then_breaks_worst_witness :
  __init__ (Some [(PyClass CustomError, PyClass ErrorStatus)])
  = Ok (mk_StatusManager [] [(PyClass CustomError, PyClass ErrorStatus)])
  /\ with_scope (mk_StatusManager [] [(PyClass CustomError, PyClass ErrorStatus)])
       (Some (mk_exn CustomError "first"))
     = (Completed,
        mk_StatusManager [PyObj ErrorStatus "first"]
                         [(PyClass CustomError, PyClass ErrorStatus)])
  /\ worst (mk_StatusManager [PyObj ErrorStatus "first"; PyObj ErrorStatus "second"]
                             [(PyClass CustomError, PyClass ErrorStatus)])
     = Raise (unrecognized_status (PyObj ErrorStatus "first"))
  /\ with_scope
       (mk_StatusManager [PyObj ErrorStatus "first"]
                         [(PyClass CustomError, PyClass ErrorStatus)])
       (Some (mk_exn CustomError "second"))
     = (Completed,
        mk_StatusManager
          (statuses (mk_StatusManager [PyObj ErrorStatus "first"]
                                      [(PyClass CustomError, PyClass ErrorStatus)])
           ++ [PyObj ErrorStatus (exn_str (mk_exn CustomError "second"))])
          (_status_map (mk_StatusManager [PyObj ErrorStatus "first"]
                                         [(PyClass CustomError, PyClass ErrorStatus)])))
  /\ exists y,
       In y (statuses (mk_StatusManager [PyObj ErrorStatus "first"]
                                        [(PyClass CustomError, PyClass ErrorStatus)])
             ++ [PyObj ErrorStatus (exn_str (mk_exn CustomError "second"))])
       /\ tier_of y = None
       /\ worst
            (mk_StatusManager
               (statuses (mk_StatusManager [PyObj ErrorStatus "first"]
                                           [(PyClass CustomError, PyClass ErrorStatus)])
                ++ [PyObj ErrorStatus (exn_str (mk_exn CustomError "second"))])
               (_status_map (mk_StatusManager [PyObj ErrorStatus "first"]
                                              [(PyClass CustomError, PyClass ErrorStatus)])))
          = Raise (unrecognized_status y)
       /\ (Forall recognized
                  (statuses (mk_StatusManager [PyObj ErrorStatus "first"]
                                              [(PyClass CustomError, PyClass ErrorStatus)])) ->
           y = PyObj ErrorStatus (exn_str (mk_exn CustomError "second"))).
Proof.
  split; [reflexivity|]. split; [reflexivity|]. split; [reflexivity|].
  apply (status_outside_tiers_is_recorded_then_breaks_worst
           (mk_StatusManager [PyObj ErrorStatus "first"]
                             [(PyClass CustomError, PyClass ErrorStatus)])
           (mk_exn CustomError "second") ErrorStatus).
  - reflexivity.
  - reflexivity.
  - reflexivity.
  - repeat constructor; discriminate.
Defined.
